(** * HungerBox Vision Analysis: a shallow embedding of [app.py]

    The Streamlit script [app.py] collects four form inputs, sends the
    uploaded picture and the question to a chat-completion endpoint, parses
    the JSON answer and renders a compliance report.

    The embedding follows the script statement by statement.  Every call
    into Streamlit, Pillow or the OpenAI client is recorded as an [event]
    of a trace; a Python exception is a value that cuts the rest of the
    enclosing block short, exactly as [raise] does.  What the outside world
    answers (Pillow's codecs, the remote model, the JSON parser, the clock)
    is gathered in a record [World] over which every statement quantifies. *)

From Stdlib Require Import String Ascii List ZArith NArith Lia Bool.
From Stdlib.Strings Require Import Byte.
From Stdlib Require Import DecimalString.
Import ListNotations.
Open Scope string_scope.

#[local] Set Warnings "-register-all".

(** ** Python strings

    A Python [str] is represented by its UTF-8 encoding, so that
    concatenation, comparison and [str.join] are those of [string].
    Iterating over a [str] yields one item per code point: a lead byte
    together with the continuation bytes (binary 10xxxxxx) that follow it.
    A [str] that holds a lone surrogate has no UTF-8 encoding and is not
    represented. *)

Definition utf8_continuation (c : ascii) : bool :=
  let n := N_of_ascii c in (128 <=? n)%N && (n <? 192)%N.

Definition starts_with_continuation (s : string) : bool :=
  match s with
  | String d _ => utf8_continuation d
  | EmptyString => false
  end.

Fixpoint str_iter (s : string) : list string :=
  match s with
  | EmptyString => []
  | String c rest =>
      let l := str_iter rest in
      if starts_with_continuation rest then
        match l with
        | hd :: tl => String c hd :: tl
        | [] => [String c EmptyString]
        end
      else String c EmptyString :: l
  end.

(** [sep.join(items)] on items that are all [str]. *)
Definition join (sep : string) (items : list string) : string :=
  String.concat sep items.

Definition string_of_nat (n : nat) : string :=
  NilZero.string_of_uint (Nat.to_uint n).

Definition string_of_Z (z : Z) : string :=
  NilZero.string_of_int (Z.to_int z).

(** ** Python values, as [json.loads] produces them

    A [float] is carried by its [repr] text, the only thing the script
    ever asks of it besides its truth value.  A [dict] is the list of its
    items in insertion order; [json.loads] yields [str] keys. *)

Inductive value : Type :=
| VNone
| VBool (b : bool)
| VInt (z : Z)
| VFloat (repr : string)
| VStr (s : string)
| VList (items : list value)
| VDict (items : list (string * value)).

Definition type_name (v : value) : string :=
  match v with
  | VNone => "NoneType"
  | VBool _ => "bool"
  | VInt _ => "int"
  | VFloat _ => "float"
  | VStr _ => "str"
  | VList _ => "list"
  | VDict _ => "dict"
  end.

(** Truth value of an object, as [if improvements:] takes it. *)
Definition truthy (v : value) : bool :=
  match v with
  | VNone => false
  | VBool b => b
  | VInt z => negb (z =? 0)%Z
  | VFloat r => negb (String.eqb r "0.0" || String.eqb r "-0.0")
  | VStr s => negb (String.eqb s "")
  | VList l => match l with [] => false | _ => true end
  | VDict d => match d with [] => false | _ => true end
  end.

(** [v == "literal"]: no JSON value other than an equal [str] compares
    equal to a [str]. *)
Definition eq_str (v : value) (lit : string) : bool :=
  match v with
  | VStr s => String.eqb s lit
  | _ => false
  end.

(** [v == [lit]], a one-element list of a [str] literal. *)
Definition eq_str_singleton (v : value) (lit : string) : bool :=
  match v with
  | VList [x] => eq_str x lit
  | _ => false
  end.

Definition is_list (v : value) : bool :=
  match v with VList _ => true | _ => false end.

(** Objects that [hash()] accepts: everything but [list] and [dict]. *)
Definition hashable (v : value) : bool :=
  match v with
  | VList _ | VDict _ => false
  | _ => true
  end.

Section Formatting.

(** [str.__repr__]: the quoting and escaping of a [str] inside the text
    of a container; it depends on the Unicode tables of the
    interpreter. *)
Variable str_repr : string -> string.

Fixpoint repr (v : value) : string :=
  match v with
  | VNone => "None"
  | VBool true => "True"
  | VBool false => "False"
  | VInt z => string_of_Z z
  | VFloat r => r
  | VStr s => str_repr s
  | VList l => "[" ++ join ", " (map repr l) ++ "]"
  | VDict d =>
      "{" ++ join ", "
               (map (fun kv => let '(k, x) := kv in
                               str_repr k ++ ": " ++ repr x) d) ++ "}"
  end.

(** [str(v)], which is also what an f-string field [{v}] inserts. *)
Definition str (v : value) : string :=
  match v with
  | VStr s => s
  | _ => repr v
  end.

End Formatting.

(** ** Exceptions

    Only instances of [Exception] occur: the class name and the text
    [str(e)]. *)

Record exception : Type := mkException {
  exc_class : string;
  exc_str : string
}.

Definition result (A : Type) : Type := (exception + A)%type.

Definition TypeError (msg : string) : exception := mkException "TypeError" msg.
Definition AttributeError (msg : string) : exception :=
  mkException "AttributeError" msg.
Definition IndexError (msg : string) : exception := mkException "IndexError" msg.
Definition UnboundLocalError (msg : string) : exception :=
  mkException "UnboundLocalError" msg.

(** The item of a [dict] stored under a key. *)
Fixpoint lookup {A : Type} (key : string) (table : list (string * A))
    : option A :=
  match table with
  | [] => None
  | (k, x) :: rest => if String.eqb k key then Some x else lookup key rest
  end.

(** [obj.get(key, default)]: defined on [dict] only. *)
Definition dict_get (d : list (string * value)) (key : string)
    (default : value) : value :=
  match lookup key d with
  | Some v => v
  | None => default
  end.

Definition get (obj : value) (key : string) (default : value) : result value :=
  match obj with
  | VDict d => inr (dict_get d key default)
  | _ => inl (AttributeError
                ("'" ++ type_name obj ++ "' object has no attribute 'get'"))
  end.

(** [sep.join(obj)]: [obj] must be iterable and yield only [str]. *)
Fixpoint join_items (i : nat) (items : list value) : result (list string) :=
  match items with
  | [] => inr []
  | VStr s :: rest =>
      match join_items (S i) rest with
      | inr l => inr (s :: l)
      | inl e => inl e
      end
  | x :: _ =>
      inl (TypeError ("sequence item " ++ string_of_nat i
                        ++ ": expected str instance, "
                        ++ type_name x ++ " found"))
  end.

Definition str_join (sep : string) (obj : value) : result string :=
  match obj with
  | VStr s => inr (join sep (str_iter s))
  | VList l =>
      match join_items 0 l with
      | inr items => inr (join sep items)
      | inl e => inl e
      end
  | VDict d => inr (join sep (map fst d))
  | _ => inl (TypeError "can only join an iterable")
  end.

(** [table.get(key, default)] on a dict literal with [str] keys: the key
    is hashed first, which fails on [list] and [dict]; a key that is not a
    [str] equals none of the table's keys. *)
Definition table_get {A : Type} (table : list (string * A)) (key : value)
    (default : A) : result A :=
  match key with
  | VList _ | VDict _ =>
      inl (TypeError ("unhashable type: '" ++ type_name key ++ "'"))
  | VStr s =>
      inr (match lookup s table with Some x => x | None => default end)
  | _ => inr default
  end.

(** ** Binary data and base64

    [base64.b64encode] walks the input three bytes at a time and emits four
    characters of the standard alphabet, padding the last group with [=]. *)

Definition bytes : Type := list byte.

Definition b64_alphabet : list byte :=
  list_byte_of_string
    "ABCDEFGHIJKLMNOPQRSTUVWXYZabcdefghijklmnopqrstuvwxyz0123456789+/".

Definition b64_pad : byte := x3d.

Definition b64_char (sextet : N) : byte :=
  nth (N.to_nat sextet) b64_alphabet b64_pad.

Definition sextet0 (a : N) : N := N.shiftr a 2.
Definition sextet1 (a b : N) : N :=
  N.lor (N.shiftl (N.land a 3) 4) (N.shiftr b 4).
Definition sextet2 (b c : N) : N :=
  N.lor (N.shiftl (N.land b 15) 2) (N.shiftr c 6).
Definition sextet3 (c : N) : N := N.land c 63.

Fixpoint b64encode (data : bytes) : bytes :=
  match data with
  | [] => []
  | [a] =>
      [b64_char (sextet0 (to_N a)); b64_char (sextet1 (to_N a) 0);
       b64_pad; b64_pad]
  | [a; b] =>
      [b64_char (sextet0 (to_N a)); b64_char (sextet1 (to_N a) (to_N b));
       b64_char (sextet2 (to_N b) 0); b64_pad]
  | a :: b :: c :: rest =>
      b64_char (sextet0 (to_N a)) :: b64_char (sextet1 (to_N a) (to_N b))
        :: b64_char (sextet2 (to_N b) (to_N c)) :: b64_char (sextet3 (to_N c))
        :: b64encode rest
  end.

(** The receiving side, which is not part of the script: the inverse
    reading of the alphabet and of the four-character groups, used to
    state that the transport form can be decoded back. *)

Fixpoint index_of (c : byte) (l : list byte) (i : N) : option N :=
  match l with
  | [] => None
  | x :: rest => if Byte.eqb x c then Some i else index_of c rest (N.succ i)
  end.

Definition b64_sextet (c : byte) : option N := index_of c b64_alphabet 0.

Definition byte_of_N (n : N) : byte :=
  match of_N n with
  | Some b => b
  | None => x00
  end.

Definition octet0 (s0 s1 : N) : byte :=
  byte_of_N (N.lor (N.shiftl s0 2) (N.shiftr s1 4)).
Definition octet1 (s1 s2 : N) : byte :=
  byte_of_N (N.lor (N.shiftl (N.land s1 15) 4) (N.shiftr s2 2)).
Definition octet2 (s2 s3 : N) : byte :=
  byte_of_N (N.lor (N.shiftl (N.land s2 3) 6) s3).

Fixpoint b64decode (text : bytes) : option bytes :=
  match text with
  | [] => Some []
  | c0 :: c1 :: c2 :: c3 :: rest =>
      match b64_sextet c0, b64_sextet c1 with
      | Some s0, Some s1 =>
          if Byte.eqb c3 b64_pad then
            match rest with
            | [] =>
                if Byte.eqb c2 b64_pad then Some [octet0 s0 s1]
                else
                  match b64_sextet c2 with
                  | Some s2 => Some [octet0 s0 s1; octet1 s1 s2]
                  | None => None
                  end
            | _ :: _ => None
            end
          else
            match b64_sextet c2, b64_sextet c3, b64decode rest with
            | Some s2, Some s3, Some tail =>
                Some (octet0 s0 s1 :: octet1 s1 s2 :: octet2 s2 s3 :: tail)
            | _, _, _ => None
            end
      | _, _ => None
      end
  | _ => None
  end.

(** ** The outside world *)

(** The raster a Pillow [Image] holds once decoded. *)
Record Image : Type := mkImage {
  im_mode : string;
  im_size : N * N;
  im_data : bytes
}.

(** The keyword arguments of [client.chat.completions.create]: the model,
    the text part and the image part of the single user message, and the
    requested response format, together with the key the client was built
    with. *)
Record request : Type := mkRequest {
  req_api_key : string;
  req_model : string;
  req_text : string;
  req_image_url : string;
  req_response_format : string
}.

(** A completion: [message.content] of each of its choices. *)
Record response : Type := mkResponse {
  choices : list (option string)
}.

Record World : Type := mkWorld {
  (** [Image.open(uploaded_image)] *)
  Image_open : bytes -> result Image;
  (** [st.image(image, ...)], which loads the pixel data and may fail *)
  st_image_load : Image -> option exception;
  (** [image.save(buffered, format=...)] followed by [buffered.getvalue()] *)
  Image_save : Image -> string -> result bytes;
  (** [client.chat.completions.create(...)] *)
  chat_completions_create : request -> result response;
  (** [json.loads] *)
  json_loads : string -> result value;
  (** [datetime.datetime.now().strftime("%Y-%m-%d %H:%M:%S")] *)
  now_strftime : string
}.

(** The values of the form's widgets on one run of the script.  An
    uploaded file is an object, hence true whatever its content. *)
Record FormInputs : Type := mkFormInputs {
  api_key : string;
  cafeteria_name : string;
  question : string;
  uploaded_image : option bytes;
  submitted : bool
}.

(** ** Traces *)

Inductive event : Type :=
| st_title (body : string)
| st_markdown (body : string) (unsafe_allow_html : bool)
| st_form (key : string)
| st_columns (widths : list nat)
| st_text_input (label : string) (password : bool)
| st_text_area (label placeholder : string)
| st_file_uploader (label : string) (types : list string) (help : string)
| st_image (image : Image) (caption : string)
| st_form_submit_button (label : string)
| st_spinner (text : string)
| st_error (body : string)
| st_success (body : string)
| st_info (body : string)
| st_write (v : value)
| st_container
| st_expander (label : string) (expanded : bool)
| call_Image_save (image : Image) (format : string)
| call_chat_completions_create (req : request).

(** A block of statements: the events it produced and either the
    exception that ended it or its value. *)
Definition M (A : Type) : Type := (list event * result A)%type.

Definition ret {A : Type} (a : A) : M A := ([], inr a).

Definition bind {A B : Type} (m : M A) (k : A -> M B) : M B :=
  match m with
  | (t, inl e) => (t, inl e)
  | (t, inr a) => let (t', r) := k a in ((t ++ t')%list, r)
  end.

Definition emit (ev : event) : M unit := ([ev], inr tt).

Definition lift {A : Type} (r : result A) : M A := ([], r).

Definition raise {A : Type} (e : exception) : M A := ([], inl e).

(** [try: body  except Exception as e: handler e] *)
Definition try_except {A : Type} (body : M A) (handler : exception -> M A)
    : M A :=
  match body with
  | (t, inl e) => let (t', r) := handler e in ((t ++ t')%list, r)
  | (t, inr a) => (t, inr a)
  end.

Definition trace {A : Type} (m : M A) : list event := fst m.
Definition outcome {A : Type} (m : M A) : result A := snd m.

Declare Scope py_scope.
Delimit Scope py_scope with py.
Notation "x <- m ;; k" := (bind m (fun x => k))
  (at level 61, m at next level, right associativity) : py_scope.
Notation "m ;; k" := (bind m (fun _ => k))
  (at level 61, right associativity) : py_scope.
Open Scope py_scope.

(** ** [display_results] *)

Definition severity_color : list (string * string) :=
  [("Critical", "severity-critical");
   ("Major", "severity-major");
   ("Minor", "severity-minor");
   ("None", "")].

Definition status_icon (status : value) : string :=
  if eq_str status "Yes" then "✅"
  else if eq_str status "No" then "❌"
  else "❓".

Section Report.

Variable str_repr : string -> string.

(** The block under [# Main metrics]. *)
Definition display_main_metrics (result : value)
    (cafeteria_name analysis_date : string) : M unit :=
  emit st_container ;;
  emit (st_markdown "## 📋 Compliance Report" false) ;;
  emit (st_columns [1; 1; 2])%nat ;;
  emit (st_markdown ("**Cafeteria:** " ++ cafeteria_name) false) ;;
  emit (st_markdown ("**Analysis Date:** " ++ analysis_date) false) ;;
  status <- lift (get result "criteria_met" (VStr "Unknown")) ;;
  emit (st_markdown ("**Compliance Status:** " ++ status_icon status
                       ++ " " ++ str str_repr status) false) ;;
  severity <- lift (get result "severity" (VStr "Unknown")) ;;
  color_class <- lift (table_get severity_color severity "") ;;
  emit (st_markdown ("**Severity Level:** <span class='" ++ color_class
                       ++ "'>" ++ str str_repr severity ++ "</span>") true) ;;
  tags <- lift (get result "tags" (VList [])) ;;
  tags <- (if is_list tags
           then joined <- lift (str_join ", " tags) ;; ret (VStr joined)
           else ret tags) ;;
  emit (st_markdown ("**Tags:** 🏷️ " ++ str str_repr tags) false).

(** The block under [# Quality Assessment]. *)
Definition display_quality_assessment (result : value) : M unit :=
  emit (st_expander "📸 Image Quality Analysis" true) ;;
  emit (st_columns [1; 1])%nat ;;
  issues <- lift (get result "image_quality_issues" (VList [VStr "none"])) ;;
  (if eq_str_singleton issues "none"
   then emit (st_success "✅ No quality issues detected")
   else joined <- lift (str_join ", " issues) ;;
        emit (st_error ("⚠️ Detected issues: " ++ joined))) ;;
  assessment <- lift (get result "quality_assessment" (VStr "")) ;;
  emit (st_info ("Quality Impact Assessment: " ++ str str_repr assessment)).

(** The block under [# Detailed Analysis]. *)
Definition display_detailed_analysis (result : value) (question : string)
    : M unit :=
  emit (st_expander "🔍 Detailed Compliance Analysis" false) ;;
  emit (st_markdown ("**Assessment Question:** " ++ question) false) ;;
  emit (st_markdown "### Explanation" false) ;;
  explanation <- lift (get result "explanation"
                         (VStr "No explanation provided")) ;;
  emit (st_write explanation) ;;
  improvements <- lift (get result "improvements" (VStr "")) ;;
  if truthy improvements
  then emit (st_markdown "### 🛠️ Improvement Suggestions" false) ;;
       emit (st_write improvements)
  else emit (st_success "🌟 No improvements needed - all standards met").

Definition display_results (result : value)
    (cafeteria_name question analysis_date : string) : M unit :=
  display_main_metrics result cafeteria_name analysis_date ;;
  display_quality_assessment result ;;
  display_detailed_analysis result question.

(** ** [main] *)

Definition prompt (question : string) : string :=
  "
                You are a food safety manager analyzing a cafeteria image.
                Question to evaluate: " ++ question ++ "

                IMPORTANT INSTRUCTIONS:
                1. First assess image quality (darkness/blurriness)
                2. For blank/empty area requests, dark images may be compliant
                3. Only mark dark/blurry images as compliant if they satisfy specific criteria

                Provide JSON analysis with:
                - criteria_met: Yes/No/Unable
                - explanation: 2-3 sentence assessment
                - improvements: actionable suggestions
                - severity: Critical/Major/Minor/None
                - image_quality_issues: list of issues
                - quality_assessment: image quality impact
                - tags: 3-5 descriptive tags
                ".

(** Lines 71 to 73: the picture saved as PNG, then base64 text. *)
Definition encode_image (w : World) (image : Image) : M string :=
  emit (call_Image_save image "PNG") ;;
  buffered <- lift (Image_save w image "PNG") ;;
  ret (string_of_list_byte (b64encode buffered)).

Definition data_url (img_base64 : string) : string :=
  "data:image/png;base64," ++ img_base64.

(** The client is built with the key of the form; the single user
    message holds the prompt and the picture as a data URL. *)
Definition build_request (f : FormInputs) (img_base64 : string) : request :=
  mkRequest (api_key f) "gpt-4o" (prompt (question f))
    (data_url img_base64) "json_object".

(** [response.choices[0].message.content] handed to [json.loads]. *)
Definition parse_response (w : World) (resp : response) : result value :=
  match choices resp with
  | [] => inl (IndexError "list index out of range")
  | None :: _ =>
      inl (TypeError
             "the JSON object must be str, bytes or bytearray, not NoneType")
  | Some content :: _ => json_loads w content
  end.

(** The body of the [try] statement; [image] is the local variable
    bound in the form when a file was uploaded. *)
Definition analysis (w : World) (f : FormInputs) (image : option Image)
    : M unit :=
  emit (st_spinner "🔍 Analyzing image and preparing report...") ;;
  image <- match image with
           | Some im => ret im
           | None =>
               raise (UnboundLocalError
                        "cannot access local variable 'image' where it is not associated with a value")
           end ;;
  img_base64 <- encode_image w image ;;
  let req := build_request f img_base64 in
  emit (call_chat_completions_create req) ;;
  resp <- lift (chat_completions_create w req) ;;
  result <- lift (parse_response w resp) ;;
  let analysis_date := now_strftime w in
  emit (st_success "✅ Analysis Complete!") ;;
  display_results result (cafeteria_name f) (question f) analysis_date.

(** [all([api_key, cafeteria_name, question, uploaded_image])] *)
Definition all_filled (f : FormInputs) : bool :=
  forallb (fun b : bool => b)
    [negb (String.eqb (api_key f) "");
     negb (String.eqb (cafeteria_name f) "");
     negb (String.eqb (question f) "");
     match uploaded_image f with Some _ => true | None => false end].

(** The [with st.form("input_form")] block; it yields the local
    variable [image]. *)
Definition input_form (w : World) (f : FormInputs) : M (option Image) :=
  emit (st_form "input_form") ;;
  emit (st_columns [1; 1])%nat ;;
  emit (st_text_input "OpenAI API Key" true) ;;
  emit (st_text_input "Cafeteria Name" false) ;;
  emit (st_text_area "Assessment Question"
          "Enter your food safety question...") ;;
  emit (st_file_uploader "Upload Cafeteria Image" ["jpg"; "jpeg"; "png"]
          "Upload a clear image of the area to assess") ;;
  image <- match uploaded_image f with
           | Some file =>
               image <- lift (Image_open w file) ;;
               match st_image_load w image with
               | Some e => raise e
               | None =>
                   emit (st_image image "Preview of Uploaded Image") ;;
                   ret (Some image)
               end
           | None => ret None
           end ;;
  emit (st_form_submit_button "Analyze Compliance") ;;
  ret image.

(** The block under [# Analysis Logic]. *)
Definition analysis_logic (w : World) (f : FormInputs)
    (image : option Image) : M unit :=
  if submitted f then
    if negb (all_filled f) then
      emit (st_error "⚠️ Please fill all required fields and upload an image")
    else
      try_except (analysis w f image)
        (fun e => emit (st_error ("Analysis failed: " ++ exc_str e)))
  else ret tt.

Definition main (w : World) (f : FormInputs) : M unit :=
  emit (st_title "🍲 HungerBox Food Safety Analyzer") ;;
  emit (st_markdown
          "### AI-powered Compliance Assessment for Cafeteria Operations"
          false) ;;
  image <- input_form w f ;;
  analysis_logic w f image.

End Report.



(** The three steps of the analysis that can fail before anything is
    rendered: saving the picture as PNG, the call to the endpoint, and
    reading the answer as JSON. *)
Inductive stage_failure (w : World) (f : FormInputs) (image : Image)
    (e : exception) : Prop :=
| reencoding_failed :
    Image_save w image "PNG" = inl e -> stage_failure w f image e
| api_call_failed (png : bytes) :
    Image_save w image "PNG" = inr png ->
    chat_completions_create w
      (build_request f (string_of_list_byte (b64encode png))) = inl e ->
    stage_failure w f image e
| parsing_failed (png : bytes) (resp : response) :
    Image_save w image "PNG" = inr png ->
    chat_completions_create w
      (build_request f (string_of_list_byte (b64encode png))) = inr resp ->
    parse_response w resp = inl e ->
    stage_failure w f image e.

(** The analysis went through and [json.loads] returned [result]. *)
Definition analysis_yields (w : World) (f : FormInputs) (image : Image)
    (result : value) : Prop :=
  exists png resp,
    Image_save w image "PNG" = inr png
    /\ chat_completions_create w
         (build_request f (string_of_list_byte (b64encode png))) = inr resp
    /\ parse_response w resp = inr result.

(** What a run shows of the report: the events of [display_results],
    closed by the message of the handler when it raised. *)
Definition rendered_report (str_repr : string -> string) (result : value)
    (cafeteria_name question analysis_date : string) : list event :=
  trace (try_except
           (display_results str_repr result cafeteria_name question
              analysis_date)
           (fun e => emit (st_error ("Analysis failed: " ++ exc_str e)))).

(** ** Observations on traces *)

Definition is_error (ev : event) : bool :=
  match ev with st_error _ => true | _ => false end.

Definition is_success (body : string) (ev : event) : bool :=
  match ev with st_success b => String.eqb b body | _ => false end.

Definition is_save (ev : event) : bool :=
  match ev with call_Image_save _ _ => true | _ => false end.

Definition is_api_call (ev : event) : bool :=
  match ev with call_chat_completions_create _ => true | _ => false end.

Definition count (p : event -> bool) (t : list event) : nat :=
  length (filter p t).

(** The default each [result.get] of [display_results] names. *)
Definition field_defaults : list (string * value) :=
  [("criteria_met", VStr "Unknown");
   ("severity", VStr "Unknown");
   ("tags", VList []);
   ("image_quality_issues", VList [VStr "none"]);
   ("quality_assessment", VStr "");
   ("explanation", VStr "No explanation provided");
   ("improvements", VStr "")].

Definition dict_remove (key : string) (d : list (string * value))
    : list (string * value) :=
  filter (fun kv => negb (String.eqb (fst kv) key)) d.

Definition joinable (v : value) : bool :=
  match str_join ", " v with
  | inr _ => true
  | inl _ => false
  end.

(** The fields on which [display_results] can raise: the severity must be
    hashable, a list of tags must hold strings only, and the issues must
    be the list ["none"] or something [str.join] accepts. *)
Definition renders (d : list (string * value)) : bool :=
  let tags := dict_get d "tags" (VList []) in
  let issues := dict_get d "image_quality_issues" (VList [VStr "none"]) in
  hashable (dict_get d "severity" (VStr "Unknown"))
  && (if is_list tags then joinable tags else true)
  && (eq_str_singleton issues "none" || joinable issues).

(** The numbers below a bound, for the facts on bytes and sextets that
    are settled by running through all of them. *)
Definition below (n : nat) : list N := map N.of_nat (seq 0 n).

Definition all_below (n : nat) (p : N -> bool) : bool := forallb p (below n).

Definition all_below2 (n m : nat) (p : N -> N -> bool) : bool :=
  all_below n (fun x => all_below m (p x)).

(** ** A small world to run the script in

    A toy codec stands for Pillow: a file is a picture when it starts with
    the byte 0x89, the first byte of a PNG file, and the rest is one row of
    grey pixels; saving writes that byte and the row back.  The endpoint
    and the JSON parser answer what they are told to. *)

Definition raw_row (data : bytes) : Image :=
  mkImage "L" (N.of_nat (length data), 1%N) data.

Definition is_raw_row (im : Image) : bool :=
  String.eqb (im_mode im) "L"
  && N.eqb (fst (im_size im)) (N.of_nat (length (im_data im)))
  && N.eqb (snd (im_size im)) 1.

Definition UnidentifiedImageError : exception :=
  mkException "UnidentifiedImageError" "cannot identify image file".

Definition sample_world (answer : result response) (parsed : result value)
    : World :=
  mkWorld
    (fun file => match file with
                 | x89 :: data => inr (raw_row data)
                 | _ => inl UnidentifiedImageError
                 end)
    (fun _ => None)
    (fun im _ => if is_raw_row im then inr (x89 :: im_data im)
                 else inl (mkException "OSError" "cannot write mode as PNG"))
    (fun _ => answer)
    (fun _ => parsed)
    "2024-01-01 12:00:00".

Definition sample_picture : bytes := [x89; x10; x20; x30].

Definition sample_form : FormInputs :=
  mkFormInputs "sk-test" "Canteen 4" "Is the counter clean?"
    (Some sample_picture) true.

(** ** The module level of the script

    Before [main] is called the script sets the page configuration (title
    of the tab, icon and layout, which draw nothing) and writes its style
    sheet with [st.markdown(..., unsafe_allow_html=True)]. *)

Definition page_style : string :=
  "
<style>
    .header {
        color: #2E86C1;
        border-bottom: 2px solid #2E86C1;
        padding-bottom: 10px;
    }
    .metric-box {
        background-color: #F8F9F9;
        border-radius: 10px;
        padding: 20px;
        margin: 10px 0;
        box-shadow: 0 2px 4px rgba(0,0,0,0.1);
    }
    .severity-critical { color: #E74C3C !important; }
    .severity-major { color: #F39C12 !important; }
    .severity-minor { color: #F1C40F !important; }
</style>
".

Definition script (str_repr : string -> string) (w : World) (f : FormInputs)
    : M unit :=
  emit (st_markdown page_style true) ;;
  main str_repr w f.

(** A rule for the class [cls] occurs in a style sheet. *)
Definition declares (css cls : string) : bool :=
  match String.index 0 ("." ++ cls ++ " {") css with
  | Some _ => true
  | None => false
  end.

(** The widgets of the form, in the order they are drawn. *)
Definition form_widgets : list event :=
  [st_form "input_form";
   st_columns [1; 1]%nat;
   st_text_input "OpenAI API Key" true;
   st_text_input "Cafeteria Name" false;
   st_text_area "Assessment Question" "Enter your food safety question...";
   st_file_uploader "Upload Cafeteria Image" ["jpg"; "jpeg"; "png"]
     "Upload a clear image of the area to assess"].

(** The two lines [main] starts with. *)
Definition main_header : list event :=
  [st_title "🍲 HungerBox Food Safety Analyzer";
   st_markdown "### AI-powered Compliance Assessment for Cafeteria Operations"
     false].

(** The five events [display_results] starts with. *)
Definition report_header (cafeteria_name analysis_date : string)
    : list event :=
  [st_container;
   st_markdown "## 📋 Compliance Report" false;
   st_columns [1; 1; 2]%nat;
   st_markdown ("**Cafeteria:** " ++ cafeteria_name) false;
   st_markdown ("**Analysis Date:** " ++ analysis_date) false].

(** The line that reports a caught exception. *)
Definition failure_line (e : exception) : event :=
  st_error ("Analysis failed: " ++ exc_str e).

Definition is_str (v : value) : bool :=
  match v with VStr _ => true | _ => false end.

Definition is_preview (ev : event) : bool :=
  match ev with st_image _ _ => true | _ => false end.

(** The line shown when the check of the four inputs fails. *)
Definition validation_line : event :=
  st_error "⚠️ Please fill all required fields and upload an image".

Definition is_validation_line (ev : event) : bool :=
  match ev with
  | st_error body =>
      String.eqb body "⚠️ Please fill all required fields and upload an image"
  | _ => false
  end.

(** The JSON values [str.join] cannot iterate over. *)
Definition is_scalar (v : value) : bool :=
  match v with
  | VNone | VBool _ | VInt _ | VFloat _ => true
  | _ => false
  end.



(** * Properties *)

(** ** Blocks and traces *)

Lemma trace_bind_ok {A B : Type} (m : M A) (k : A -> M B) (a : A) :
  outcome m = inr a ->
  trace (bind m k) = (trace m ++ trace (k a))%list
  /\ outcome (bind m k) = outcome (k a).
Proof.
  destruct m as [t [e | x]]; cbn; intros H; [discriminate |].
  injection H as ->. destruct (k a) as [t' r]. cbn. split; reflexivity.
Qed.

Lemma bind_raised {A B : Type} (m : M A) (k : A -> M B) (e : exception) :
  outcome m = inl e ->
  trace (bind m k) = trace m /\ outcome (bind m k) = inl e.
Proof.
  destruct m as [t [e' | x]]; cbn; intros H; [| discriminate].
  injection H as ->. split; reflexivity.
Qed.

Lemma in_trace_bind_l {A B : Type} (m : M A) (k : A -> M B) (ev : event) :
  In ev (trace m) -> In ev (trace (bind m k)).
Proof.
  destruct m as [t [e | x]]; cbn; [tauto |].
  destruct (k x) as [t' r]; cbn. intros H. apply in_or_app. now left.
Qed.

Lemma in_trace_bind_r {A B : Type} (m : M A) (k : A -> M B) (a : A)
    (ev : event) :
  outcome m = inr a -> In ev (trace (k a)) -> In ev (trace (bind m k)).
Proof.
  intros Hm Hk. destruct (trace_bind_ok m k a Hm) as [-> _].
  apply in_or_app. now right.
Qed.

Lemma outcome_bind_inv {A B : Type} (m : M A) (k : A -> M B) (b : B) :
  outcome (bind m k) = inr b ->
  exists a, outcome m = inr a /\ outcome (k a) = inr b.
Proof.
  destruct m as [t [e | x]]; cbn; [discriminate |].
  destruct (k x) as [t' r] eqn:Hk; cbn. intros ->.
  exists x. rewrite Hk. split; reflexivity.
Qed.

Lemma bind_emit {B : Type} (ev : event) (k : unit -> M B) :
  bind (emit ev) k = (ev :: trace (k tt), outcome (k tt)).
Proof. unfold bind, emit. destruct (k tt); reflexivity. Qed.

Lemma bind_lift_ok {A B : Type} (a : A) (k : A -> M B) :
  bind (lift (inr a)) k = k a.
Proof. unfold bind, lift. destruct (k a); reflexivity. Qed.

Lemma bind_lift_raised {A B : Type} (e : exception) (k : A -> M B) :
  bind (lift (inl e)) k = ([], inl e).
Proof. reflexivity. Qed.

Lemma bind_ret {A B : Type} (a : A) (k : A -> M B) : bind (ret a) k = k a.
Proof. unfold bind, ret. destruct (k a); reflexivity. Qed.

Lemma m_eta {A : Type} (m : M A) : m = (trace m, outcome m).
Proof. destruct m; reflexivity. Qed.

(** ** Strings and values *)

Example str_iter_ascii : str_iter "blur" = ["b"; "l"; "u"; "r"].
Proof. reflexivity. Qed.

Example str_iter_utf8 : str_iter "a✅b" = ["a"; "✅"; "b"].
Proof. reflexivity. Qed.

Lemma eq_str_true (v : value) (lit : string) :
  eq_str v lit = true <-> v = VStr lit.
Proof.
  destruct v; cbn; try (split; [discriminate | intros H; discriminate H]).
  rewrite String.eqb_eq. split; [intros -> | intros [= ->]]; reflexivity.
Qed.

Lemma join_items_strings (l : list string) (i : nat) :
  join_items i (map VStr l) = inr l.
Proof.
  revert i. induction l as [| s l IH]; intros i; cbn; [reflexivity |].
  now rewrite IH.
Qed.

Lemma str_join_strings (sep : string) (l : list string) :
  str_join sep (VList (map VStr l)) = inr (join sep l).
Proof. cbn. now rewrite join_items_strings. Qed.

Lemma eq_str_singleton_true (v : value) (lit : string) :
  eq_str_singleton v lit = true <-> v = VList [VStr lit].
Proof.
  destruct v as [| | | | | [| x [| y l]] |]; cbn;
    try (split; [discriminate | intros H; discriminate H]).
  rewrite eq_str_true. split; [intros -> | intros [= ->]]; reflexivity.
Qed.

(** ** The report *)




Example partial_status_rendered (str_repr : string -> string) :
  In (st_markdown "**Compliance Status:** ❓ Partial" false)
     (trace (display_results str_repr
               (VDict [("criteria_met", VStr "Partial")]) "c" "q" "t")).
Proof. cbn. tauto. Qed.

Lemma severity_class_cases (severity : value) :
  hashable severity = true ->
  exists color_class,
    table_get severity_color severity "" = inr color_class
    /\ (severity = VStr "Critical" -> color_class = "severity-critical")
    /\ (severity = VStr "Major" -> color_class = "severity-major")
    /\ (severity = VStr "Minor" -> color_class = "severity-minor")
    /\ (severity <> VStr "Critical" -> severity <> VStr "Major" ->
        severity <> VStr "Minor" -> color_class = "").
Proof.
  intros Hh. destruct severity as [| b | z | r | s | l | l];
    try discriminate Hh;
    try (exists ""; cbn; repeat split; trivial; discriminate).
  cbn [table_get severity_color lookup].
  destruct (String.eqb_spec "Critical" s) as [<- | Hc].
  { eexists; split; [reflexivity |].
    repeat split; trivial; try discriminate. intros H; now contradiction H. }
  destruct (String.eqb_spec "Major" s) as [<- | Hj].
  { eexists; split; [reflexivity |].
    repeat split; trivial; try discriminate. intros _ H; now contradiction H. }
  destruct (String.eqb_spec "Minor" s) as [<- | Hn].
  { eexists; split; [reflexivity |].
    repeat split; trivial; try discriminate.
    intros _ _ H; now contradiction H. }
  exists "". split.
  { destruct (String.eqb_spec "None" s); reflexivity. }
  repeat split; trivial; intros [= E]; congruence.
Qed.

Lemma severity_line_in_main_metrics (str_repr : string -> string)
    (d : list (string * value)) (c t color_class : string) :
  let severity := dict_get d "severity" (VStr "Unknown") in
  table_get severity_color severity "" = inr color_class ->
  In (st_markdown ("**Severity Level:** <span class='" ++ color_class
                     ++ "'>" ++ str str_repr severity ++ "</span>") true)
     (trace (display_main_metrics str_repr (VDict d) c t)).
Proof.
  intros severity Hc. unfold display_main_metrics. cbn [get].
  rewrite !bind_emit, bind_lift_ok, bind_emit, bind_lift_ok.
  fold severity. rewrite Hc, bind_lift_ok, bind_emit. cbn [trace fst In].
  do 6 right. left. reflexivity.
Qed.

(** C5, as the script has it: for a severity that can be hashed (a
    string, a number, a boolean, null, or the default of an absent field)
    the severity line is styled with the class of the table for
    "Critical", "Major" and "Minor", three different classes, and with the
    empty class for "None" and for every other value; the value itself is
    the text of the span. *)
Theorem severity_style_class (str_repr : string -> string)
    (d : list (string * value)) (c q t : string) :
  let severity := dict_get d "severity" (VStr "Unknown") in
  hashable severity = true ->
  exists color_class,
    In (st_markdown ("**Severity Level:** <span class='" ++ color_class
                       ++ "'>" ++ str str_repr severity ++ "</span>") true)
       (trace (display_results str_repr (VDict d) c q t))
    /\ (severity = VStr "Critical" -> color_class = "severity-critical")
    /\ (severity = VStr "Major" -> color_class = "severity-major")
    /\ (severity = VStr "Minor" -> color_class = "severity-minor")
    /\ (severity = VStr "None" -> color_class = "")
    /\ (severity <> VStr "Critical" -> severity <> VStr "Major" ->
        severity <> VStr "Minor" -> color_class = "")
    /\ (forall s, severity = VStr s -> str str_repr severity = s).
Proof.
  intros severity Hh.
  destruct (severity_class_cases severity Hh) as (cls & Hg & Hc & Hj & Hn & Ho).
  exists cls. split.
  { unfold display_results. apply in_trace_bind_l.
    now apply severity_line_in_main_metrics. }
  repeat split; trivial.
  - intros E. apply Ho; rewrite E; discriminate.
  - intros s E. rewrite E. reflexivity.
Qed.

Lemma severity_style_class_witness :
  hashable (dict_get [("severity", VStr "Major")] "severity" (VStr "Unknown"))
    = true
  /\ exists color_class,
       In (st_markdown ("**Severity Level:** <span class='" ++ color_class
                          ++ "'>Major</span>") true)
          (trace (display_results (fun s => s)
                    (VDict [("severity", VStr "Major")]) "c" "q" "t"))
       /\ color_class = "severity-major".
Proof.
  split; [reflexivity |].
  destruct (severity_style_class (fun s => s) [("severity", VStr "Major")]
              "c" "q" "t" eq_refl)
    as (cls & Hin & _ & Hj & _).
  exists cls. split; [exact Hin | apply Hj; reflexivity].
Defined.

(** C5, as it is worded, gives the empty class to every value outside
    the four names.  A severity that is a JSON array cannot be hashed for
    the lookup in the table: [display_results] raises after the compliance
    line, and no severity line is shown, with the empty class or any
    other. *)
Lemma list_severity_gets_no_severity_line :
  let d := [("severity", VList [VStr "Major"])] in
  dict_get d "severity" (VStr "Unknown") <> VStr "Critical"
  /\ dict_get d "severity" (VStr "Unknown") <> VStr "Major"
  /\ dict_get d "severity" (VStr "Unknown") <> VStr "Minor"
  /\ outcome (display_results (fun s => s) (VDict d) "c" "q" "t")
     = inl (TypeError "unhashable type: 'list'")
  /\ length (trace (display_results (fun s => s) (VDict d) "c" "q" "t"))
     = 6%nat
  /\ forall body unsafe,
       In (st_markdown body unsafe)
          (trace (display_results (fun s => s) (VDict d) "c" "q" "t")) ->
       unsafe = false.
Proof.
  cbv zeta. repeat split; try discriminate.
  intros body unsafe H. vm_compute in H.
  repeat (destruct H as [H | H]; [try discriminate H; now injection H |]).
  contradiction.
Qed.

(** Events of a given kind are absent from a block when they are absent
    from each of its statements. *)
Lemma none_bind {A B : Type} (p : event -> bool) (m : M A) (k : A -> M B) :
  Forall (fun ev => p ev = false) (trace m) ->
  (forall a, outcome m = inr a ->
             Forall (fun ev => p ev = false) (trace (k a))) ->
  Forall (fun ev => p ev = false) (trace (bind m k)).
Proof.
  intros Hm Hk. destruct m as [tm [e | a]]; cbn in *; [exact Hm |].
  specialize (Hk a eq_refl). destruct (k a) as [tk r]; cbn in *.
  apply Forall_app. now split.
Qed.

Lemma none_emit (p : event -> bool) (ev : event) :
  p ev = false -> Forall (fun ev => p ev = false) (trace (emit ev)).
Proof. intros H. cbn. now constructor. Qed.

Lemma none_lift {A : Type} (p : event -> bool) (r : result A) :
  Forall (fun ev => p ev = false) (trace (lift r)).
Proof. constructor. Qed.

Lemma none_ret {A : Type} (p : event -> bool) (a : A) :
  Forall (fun ev => p ev = false) (trace (ret a)).
Proof. constructor. Qed.

Lemma none_not_in (p : event -> bool) (t : list event) (ev : event) :
  Forall (fun ev => p ev = false) t -> p ev = true -> ~ In ev t.
Proof.
  intros Hall Hp Hin. rewrite Forall_forall in Hall.
  specialize (Hall ev Hin). congruence.
Qed.

Lemma main_metrics_no_alert (str_repr : string -> string) (result : value)
    (c t : string) (p : event -> bool) :
  (forall body unsafe, p (st_markdown body unsafe) = false) ->
  p st_container = false ->
  (forall widths, p (st_columns widths) = false) ->
  Forall (fun ev => p ev = false)
         (trace (display_main_metrics str_repr result c t)).
Proof.
  intros Hmd Hco Hcl. unfold display_main_metrics.
  repeat first
    [ apply none_bind; [| intros ? ?]
    | apply none_emit; solve [apply Hmd | apply Hco | apply Hcl]
    | apply none_lift
    | apply none_ret
    | match goal with |- context [if ?b then _ else _] => destruct b end ].
Qed.

Lemma detailed_analysis_no_alert (result : value) (q : string) (p : event -> bool) :
  (forall body unsafe, p (st_markdown body unsafe) = false) ->
  (forall label expanded, p (st_expander label expanded) = false) ->
  (forall v, p (st_write v) = false) ->
  p (st_success "🌟 No improvements needed - all standards met") = false ->
  Forall (fun ev => p ev = false)
         (trace (display_detailed_analysis result q)).
Proof.
  intros Hmd Hex Hwr Hsu. unfold display_detailed_analysis.
  repeat first
    [ apply none_bind; [| intros ? ?]
    | apply none_emit; solve [apply Hmd | apply Hex | apply Hwr | apply Hsu]
    | apply none_lift
    | apply none_ret
    | match goal with |- context [if ?b then _ else _] => destruct b end ].
Qed.

Lemma quality_assessment_none (str_repr : string -> string)
    (d : list (string * value)) :
  dict_get d "image_quality_issues" (VList [VStr "none"])
    = VList [VStr "none"] ->
  display_quality_assessment str_repr (VDict d)
  = ([st_expander "📸 Image Quality Analysis" true; st_columns [1; 1]%nat;
      st_success "✅ No quality issues detected";
      st_info ("Quality Impact Assessment: "
                 ++ str str_repr (dict_get d "quality_assessment" (VStr "")))],
     inr tt).
Proof.
  intros Hi. unfold display_quality_assessment. cbn [get].
  rewrite !bind_emit, bind_lift_ok, Hi. reflexivity.
Qed.

Lemma quality_assessment_issues (str_repr : string -> string)
    (d : list (string * value)) (joined : string) :
  let issues := dict_get d "image_quality_issues" (VList [VStr "none"]) in
  issues <> VList [VStr "none"] ->
  str_join ", " issues = inr joined ->
  display_quality_assessment str_repr (VDict d)
  = ([st_expander "📸 Image Quality Analysis" true; st_columns [1; 1]%nat;
      st_error ("⚠️ Detected issues: " ++ joined);
      st_info ("Quality Impact Assessment: "
                 ++ str str_repr (dict_get d "quality_assessment" (VStr "")))],
     inr tt).
Proof.
  intros issues Hne Hj. unfold display_quality_assessment. cbn [get].
  rewrite !bind_emit, bind_lift_ok. fold issues.
  destruct (eq_str_singleton issues "none") eqn:He.
  { apply eq_str_singleton_true in He. contradiction. }
  rewrite Hj. reflexivity.
Qed.

Lemma tags_line_in_main_metrics (str_repr : string -> string)
    (d : list (string * value)) (c t shown : string) :
  let tags := dict_get d "tags" (VList []) in
  hashable (dict_get d "severity" (VStr "Unknown")) = true ->
  (if is_list tags then str_join ", " tags = inr shown
   else str str_repr tags = shown) ->
  In (st_markdown ("**Tags:** 🏷️ " ++ shown) false)
     (trace (display_main_metrics str_repr (VDict d) c t))
  /\ outcome (display_main_metrics str_repr (VDict d) c t) = inr tt.
Proof.
  intros tags Hh Ht.
  destruct (severity_class_cases _ Hh) as (cls & Hc & _).
  unfold display_main_metrics. cbn [get].
  rewrite !bind_emit, bind_lift_ok, bind_emit, bind_lift_ok, Hc,
    bind_lift_ok, bind_emit, bind_lift_ok.
  fold tags. destruct (is_list tags).
  - rewrite Ht, bind_lift_ok, bind_ret. cbn. split; [| reflexivity].
    do 7 right. left. reflexivity.
  - rewrite bind_ret, <- Ht. cbn. split; [| reflexivity].
    do 7 right. left. reflexivity.
Qed.

(** C6: a [tags] value that is a list of strings is shown joined with
    ", ", and one that is already a string is shown as it is. *)
Theorem tags_rendering (str_repr : string -> string)
    (d : list (string * value)) (c q t : string) :
  hashable (dict_get d "severity" (VStr "Unknown")) = true ->
  (forall l, dict_get d "tags" (VList []) = VList (map VStr l) ->
     In (st_markdown ("**Tags:** 🏷️ " ++ join ", " l) false)
        (trace (display_results str_repr (VDict d) c q t)))
  /\ (forall s, dict_get d "tags" (VList []) = VStr s ->
        In (st_markdown ("**Tags:** 🏷️ " ++ s) false)
           (trace (display_results str_repr (VDict d) c q t)))
  /\ join ", " ["a"; "b"; "c"] = "a, b, c".
Proof.
  intros Hh. split; [| split; [| reflexivity]].
  - intros l Ht. unfold display_results. apply in_trace_bind_l.
    apply tags_line_in_main_metrics; [exact Hh |].
    rewrite Ht. cbn [is_list]. apply str_join_strings.
  - intros s Ht. unfold display_results. apply in_trace_bind_l.
    apply tags_line_in_main_metrics; [exact Hh |].
    rewrite Ht. reflexivity.
Qed.

Lemma tags_rendering_witness :
  In (st_markdown "**Tags:** 🏷️ a, b, c" false)
     (trace (display_results (fun s => s)
               (VDict [("tags", VList [VStr "a"; VStr "b"; VStr "c"])])
               "c" "q" "t"))
  /\ In (st_markdown "**Tags:** 🏷️ a, b, c" false)
        (trace (display_results (fun s => s)
                  (VDict [("tags", VStr "a, b, c")]) "c" "q" "t")).
Proof.
  split.
  - exact (proj1 (tags_rendering (fun s => s)
                    [("tags", VList [VStr "a"; VStr "b"; VStr "c"])]
                    "c" "q" "t" eq_refl) ["a"; "b"; "c"] eq_refl).
  - exact (proj1 (proj2 (tags_rendering (fun s => s)
                           [("tags", VStr "a, b, c")] "c" "q" "t" eq_refl))
             "a, b, c" eq_refl).
Defined.

Lemma display_results_after_metrics (str_repr : string -> string)
    (result : value) (c q t : string) :
  outcome (display_main_metrics str_repr result c t) = inr tt ->
  trace (display_results str_repr result c q t)
  = (trace (display_main_metrics str_repr result c t)
     ++ trace (bind (display_quality_assessment str_repr result)
                 (fun _ => display_detailed_analysis result q)))%list.
Proof.
  intros Hm. unfold display_results.
  now destruct (trace_bind_ok _ (fun _ =>
    bind (display_quality_assessment str_repr result)
      (fun _ => display_detailed_analysis result q)) tt Hm) as [-> _].
Qed.

Lemma display_results_none (str_repr : string -> string)
    (d : list (string * value)) (c q t : string) :
  outcome (display_main_metrics str_repr (VDict d) c t) = inr tt ->
  dict_get d "image_quality_issues" (VList [VStr "none"])
    = VList [VStr "none"] ->
  In (st_success "✅ No quality issues detected")
     (trace (display_results str_repr (VDict d) c q t))
  /\ forall body,
       ~ In (st_error body) (trace (display_results str_repr (VDict d) c q t)).
Proof.
  intros Hm Hi. rewrite (display_results_after_metrics _ _ _ _ _ Hm).
  pose proof (quality_assessment_none str_repr d Hi) as Hq.
  assert (Hqo : outcome (display_quality_assessment str_repr (VDict d))
                = inr tt) by now rewrite Hq.
  destruct (trace_bind_ok _ (fun _ => display_detailed_analysis (VDict d) q)
              tt Hqo) as [-> _].
  rewrite Hq. cbn [trace fst]. split.
  - apply in_or_app. right. apply in_or_app. left. cbn. tauto.
  - intros body. apply none_not_in with (p := is_error); [| reflexivity].
    apply Forall_app. split.
    + apply main_metrics_no_alert; reflexivity.
    + apply Forall_app. split.
      * repeat constructor.
      * apply detailed_analysis_no_alert; reflexivity.
Qed.

Lemma display_results_issues (str_repr : string -> string)
    (d : list (string * value)) (c q t joined : string) :
  let issues := dict_get d "image_quality_issues" (VList [VStr "none"]) in
  outcome (display_main_metrics str_repr (VDict d) c t) = inr tt ->
  issues <> VList [VStr "none"] ->
  str_join ", " issues = inr joined ->
  In (st_error ("⚠️ Detected issues: " ++ joined))
     (trace (display_results str_repr (VDict d) c q t))
  /\ ~ In (st_success "✅ No quality issues detected")
          (trace (display_results str_repr (VDict d) c q t)).
Proof.
  intros issues Hm Hne Hj.
  rewrite (display_results_after_metrics _ _ _ _ _ Hm).
  pose proof (quality_assessment_issues str_repr d joined Hne Hj) as Hq.
  assert (Hqo : outcome (display_quality_assessment str_repr (VDict d))
                = inr tt) by now rewrite Hq.
  destruct (trace_bind_ok _ (fun _ => display_detailed_analysis (VDict d) q)
              tt Hqo) as [-> _].
  rewrite Hq. cbn [trace fst]. split.
  - apply in_or_app. right. apply in_or_app. left. cbn. tauto.
  - apply none_not_in
      with (p := is_success "✅ No quality issues detected");
      [| reflexivity].
    apply Forall_app. split.
    + apply main_metrics_no_alert; reflexivity.
    + apply Forall_app. split.
      * repeat constructor.
      * apply detailed_analysis_no_alert; reflexivity.
Qed.

Lemma map_VStr_injective (l l' : list string) :
  map VStr l = map VStr l' -> l = l'.
Proof.
  revert l'. induction l as [| s l IH]; intros [| s' l'] H;
    try discriminate; [reflexivity |].
  cbn in H. injection H as -> H. f_equal. now apply IH.
Qed.

(** C7: when [image_quality_issues] is the list ["none"] the success line
    is shown and no warning; for every other list of strings the warning
    carries the items joined with ", " and the success line is absent. *)
Theorem image_quality_issues_rendering (str_repr : string -> string)
    (d : list (string * value)) (c q t : string) (l : list string) :
  outcome (display_main_metrics str_repr (VDict d) c t) = inr tt ->
  dict_get d "image_quality_issues" (VList [VStr "none"])
    = VList (map VStr l) ->
  (l = ["none"] ->
     In (st_success "✅ No quality issues detected")
        (trace (display_results str_repr (VDict d) c q t))
     /\ forall body,
          ~ In (st_error body)
               (trace (display_results str_repr (VDict d) c q t)))
  /\ (l <> ["none"] ->
        In (st_error ("⚠️ Detected issues: " ++ join ", " l))
           (trace (display_results str_repr (VDict d) c q t))
        /\ ~ In (st_success "✅ No quality issues detected")
                (trace (display_results str_repr (VDict d) c q t)))
  /\ join ", " ["blurry"; "underexposed"] = "blurry, underexposed".
Proof.
  intros Hm Hi. split; [| split; [| reflexivity]].
  - intros ->. now apply display_results_none.
  - intros Hne. apply display_results_issues; [exact Hm | |].
    + rewrite Hi. intros [= E].
      apply Hne. now apply (map_VStr_injective l ["none"]).
    + rewrite Hi. apply str_join_strings.
Qed.

Lemma image_quality_issues_rendering_witness :
  In (st_error "⚠️ Detected issues: blurry, underexposed")
     (trace (display_results (fun s => s)
               (VDict [("image_quality_issues",
                        VList [VStr "blurry"; VStr "underexposed"])])
               "c" "q" "t"))
  /\ In (st_success "✅ No quality issues detected")
        (trace (display_results (fun s => s)
                  (VDict [("image_quality_issues", VList [VStr "none"])])
                  "c" "q" "t")).
Proof.
  split.
  - refine (proj1 (proj1 (proj2 (image_quality_issues_rendering (fun s => s)
              [("image_quality_issues",
                VList [VStr "blurry"; VStr "underexposed"])]
              "c" "q" "t" ["blurry"; "underexposed"] eq_refl eq_refl)) _)).
    discriminate.
  - exact (proj1 (proj1 (image_quality_issues_rendering (fun s => s)
              [("image_quality_issues", VList [VStr "none"])]
              "c" "q" "t" ["none"] eq_refl eq_refl) eq_refl)).
Defined.

(** C10: when [image_quality_issues] is a string, the comparison with
    ["none"] fails and the warning shows the characters of the string
    joined with ", ", not the string itself. *)
Theorem string_issues_joined_by_character (str_repr : string -> string)
    (d : list (string * value)) (c q t s : string) :
  outcome (display_main_metrics str_repr (VDict d) c t) = inr tt ->
  dict_get d "image_quality_issues" (VList [VStr "none"]) = VStr s ->
  In (st_error ("⚠️ Detected issues: " ++ join ", " (str_iter s)))
     (trace (display_results str_repr (VDict d) c q t))
  /\ ~ In (st_success "✅ No quality issues detected")
          (trace (display_results str_repr (VDict d) c q t))
  /\ join ", " (str_iter "blur") = "b, l, u, r".
Proof.
  intros Hm Hi.
  destruct (display_results_issues str_repr d c q t (join ", " (str_iter s)) Hm)
    as [Hin Hno].
  - rewrite Hi. discriminate.
  - rewrite Hi. reflexivity.
  - repeat split; trivial.
Qed.

Lemma string_issues_joined_by_character_witness :
  In (st_error "⚠️ Detected issues: b, l, u, r")
     (trace (display_results (fun s => s)
               (VDict [("image_quality_issues", VStr "blur")]) "c" "q" "t")).
Proof.
  exact (proj1 (string_issues_joined_by_character (fun s => s)
                  [("image_quality_issues", VStr "blur")] "c" "q" "t" "blur"
                  eq_refl eq_refl)).
Defined.

(** ** Absent fields *)

Lemma outcome_bind {A B : Type} (m : M A) (k : A -> M B) :
  outcome (bind m k)
  = match outcome m with
    | inl e => inl e
    | inr a => outcome (k a)
    end.
Proof.
  destruct m as [t [e | a]]; cbn; [reflexivity |].
  destruct (k a); reflexivity.
Qed.

Lemma table_get_hashable {A : Type} (table : list (string * A))
    (key : value) (default : A) :
  hashable key = true <-> exists x, table_get table key default = inr x.
Proof.
  destruct key; cbn; split; intros H; try reflexivity; try (eexists; reflexivity);
    try discriminate; destruct H as [x H]; discriminate.
Qed.

Ltac step_outcome :=
  repeat (rewrite outcome_bind; cbn [outcome emit lift ret snd]).

Lemma main_metrics_ok_iff (str_repr : string -> string)
    (d : list (string * value)) (c t : string) :
  let tags := dict_get d "tags" (VList []) in
  outcome (display_main_metrics str_repr (VDict d) c t) = inr tt
  <-> hashable (dict_get d "severity" (VStr "Unknown"))
      && (if is_list tags then joinable tags else true) = true.
Proof.
  intros tags. unfold display_main_metrics, joinable. cbn [get]. step_outcome.
  set (severity := dict_get d "severity" (VStr "Unknown")). fold tags.
  destruct (table_get severity_color severity "") as [e | cls] eqn:Hc.
  - destruct (hashable severity) eqn:Hh.
    + apply (table_get_hashable severity_color severity "") in Hh.
      destruct Hh as [x Hx]. congruence.
    + cbn. split; discriminate.
  - assert (Hh : hashable severity = true)
      by (apply (table_get_hashable severity_color severity "");
          now exists cls).
    rewrite Hh. cbn [andb]. step_outcome.
    destruct (is_list tags); step_outcome.
    + destruct (str_join ", " tags); step_outcome;
        [split; discriminate | tauto].
    + tauto.
Qed.

Lemma quality_assessment_ok_iff (str_repr : string -> string)
    (d : list (string * value)) :
  let issues := dict_get d "image_quality_issues" (VList [VStr "none"]) in
  outcome (display_quality_assessment str_repr (VDict d)) = inr tt
  <-> eq_str_singleton issues "none" || joinable issues = true.
Proof.
  intros issues. unfold display_quality_assessment, joinable. cbn [get].
  step_outcome. fold issues.
  destruct (eq_str_singleton issues "none"); step_outcome; [tauto |].
  destruct (str_join ", " issues); step_outcome;
    [split; discriminate | tauto].
Qed.

Lemma detailed_analysis_ok (d : list (string * value)) (q : string) :
  outcome (display_detailed_analysis (VDict d) q) = inr tt.
Proof.
  unfold display_detailed_analysis. cbn [get]. step_outcome.
  destruct (truthy _); step_outcome; reflexivity.
Qed.

Lemma display_results_ok_iff (str_repr : string -> string)
    (d : list (string * value)) (c q t : string) :
  outcome (display_results str_repr (VDict d) c q t) = inr tt
  <-> renders d = true.
Proof.
  unfold display_results, renders. rewrite !outcome_bind.
  rewrite detailed_analysis_ok, andb_true_iff.
  rewrite <- main_metrics_ok_iff with (str_repr := str_repr) (c := c) (t := t).
  rewrite <- quality_assessment_ok_iff with (str_repr := str_repr).
  destruct (outcome (display_main_metrics str_repr (VDict d) c t))
    as [e | []].
  - split; [discriminate | intros [H _]; discriminate H].
  - destruct (outcome (display_quality_assessment str_repr (VDict d)))
      as [e | []].
    + split; [discriminate | intros [_ H]; discriminate H].
    + tauto.
Qed.

Lemma dict_get_cons (k key : string) (v default : value)
    (d : list (string * value)) :
  dict_get ((k, v) :: d) key default
  = if String.eqb k key then v else dict_get d key default.
Proof. unfold dict_get. cbn. now destruct (String.eqb k key). Qed.

Lemma lookup_remove (key k : string) (d : list (string * value)) :
  lookup k (dict_remove key d)
  = if String.eqb key k then None else lookup k d.
Proof.
  unfold dict_remove. induction d as [| [k' v] d IH]; cbn [filter fst lookup].
  - now destruct (String.eqb key k).
  - destruct (String.eqb_spec k' key) as [-> | Hne]; cbn [negb lookup].
    + rewrite IH. destruct (String.eqb_spec key k); reflexivity.
    + rewrite IH.
      destruct (String.eqb_spec k' k) as [-> | Hk]; [| reflexivity].
      destruct (String.eqb_spec key k); [congruence | reflexivity].
Qed.

Lemma dict_get_remove (key k : string) (default : value)
    (d : list (string * value)) :
  dict_get (dict_remove key d) k default
  = if String.eqb key k then default else dict_get d k default.
Proof.
  unfold dict_get. rewrite lookup_remove. now destruct (String.eqb key k).
Qed.

Lemma field_defaults_functional (key : string) (a b : value) :
  In (key, a) field_defaults -> In (key, b) field_defaults -> a = b.
Proof.
  cbn. intros Ha Hb.
  repeat (destruct Ha as [Ha | Ha]; [injection Ha as <- <- |]);
    try contradiction;
    repeat (destruct Hb as [Hb | Hb];
            [try discriminate Hb; injection Hb as <- |]);
    try contradiction; reflexivity.
Qed.

Lemma display_results_ext (str_repr : string -> string)
    (d d' : list (string * value)) (c q t : string) :
  (forall key default, In (key, default) field_defaults ->
     dict_get d key default = dict_get d' key default) ->
  display_results str_repr (VDict d) c q t
  = display_results str_repr (VDict d') c q t.
Proof.
  intros H.
  unfold display_results, display_main_metrics, display_quality_assessment,
    display_detailed_analysis. cbn [get].
  rewrite (H "criteria_met" (VStr "Unknown")) by (cbn; tauto).
  rewrite (H "severity" (VStr "Unknown")) by (cbn; tauto).
  rewrite (H "tags" (VList [])) by (cbn; tauto).
  rewrite (H "image_quality_issues" (VList [VStr "none"])) by (cbn; tauto).
  rewrite (H "quality_assessment" (VStr "")) by (cbn; tauto).
  rewrite (H "explanation" (VStr "No explanation provided")) by (cbn; tauto).
  rewrite (H "improvements" (VStr "")) by (cbn; tauto).
  reflexivity.
Qed.

Lemma renders_remove (key : string) (d : list (string * value)) :
  renders d = true -> renders (dict_remove key d) = true.
Proof.
  unfold renders. rewrite !dict_get_remove.
  destruct (String.eqb key "severity"), (String.eqb key "tags"),
    (String.eqb key "image_quality_issues"); cbn [hashable is_list andb orb];
    rewrite ?andb_true_iff; intros H; repeat split; try apply H;
    reflexivity.
Qed.

(** C3, as the script has it: a field that is absent from the parsed
    object is rendered exactly as if it were present with the default named
    by its [result.get]: "Unknown" for [criteria_met] and [severity],
    "No explanation provided" for [explanation], the one-element list
    ["none"] for [image_quality_issues], the empty list for [tags] and the
    empty string for the two others; and a report that is rendered without
    an exception is still rendered without one when a field is taken
    away. *)
Theorem absent_fields_take_defaults (str_repr : string -> string)
    (d : list (string * value)) (c q t : string) :
  (forall key default,
     In (key, default) field_defaults -> lookup key d = None ->
     display_results str_repr (VDict d) c q t
     = display_results str_repr (VDict ((key, default) :: d)) c q t)
  /\ (forall key,
        outcome (display_results str_repr (VDict d) c q t) = inr tt ->
        outcome (display_results str_repr (VDict (dict_remove key d)) c q t)
        = inr tt)
  /\ In ("criteria_met", VStr "Unknown") field_defaults
  /\ In ("severity", VStr "Unknown") field_defaults
  /\ In ("explanation", VStr "No explanation provided") field_defaults
  /\ In ("image_quality_issues", VList [VStr "none"]) field_defaults.
Proof.
  split; [| split].
  - intros key default Hin Habs. apply display_results_ext.
    intros k def Hk. rewrite dict_get_cons.
    destruct (String.eqb_spec key k) as [<- | Hne]; [| reflexivity].
    rewrite (field_defaults_functional key def default Hk Hin).
    unfold dict_get. now rewrite Habs.
  - intros key. rewrite !display_results_ok_iff. apply renders_remove.
  - cbn. tauto.
Qed.

Lemma absent_fields_take_defaults_witness :
  display_results (fun s => s) (VDict []) "c" "q" "t"
  = display_results (fun s => s)
      (VDict [("image_quality_issues", VList [VStr "none"])]) "c" "q" "t"
  /\ outcome (display_results (fun s => s)
                (VDict (dict_remove "tags" [("tags", VList [VStr "a"])]))
                "c" "q" "t") = inr tt.
Proof.
  split.
  - refine (proj1 (absent_fields_take_defaults (fun s => s) [] "c" "q" "t")
              "image_quality_issues" (VList [VStr "none"]) _ eq_refl).
    cbn. tauto.
  - exact (proj1 (proj2 (absent_fields_take_defaults (fun s => s)
                           [("tags", VList [VStr "a"])] "c" "q" "t"))
             "tags" eq_refl).
Defined.

(** C3, as it is worded, takes the empty list for the default of
    [image_quality_issues]: an object without the field would then be
    rendered like one that holds the empty list there.  It is not: the
    first shows the success line, the second a warning. *)
Lemma empty_list_is_not_the_issues_default :
  lookup "image_quality_issues" (@nil (string * value)) = None
  /\ display_results (fun s => s) (VDict []) "c" "q" "t"
     <> display_results (fun s => s)
          (VDict [("image_quality_issues", VList [])]) "c" "q" "t"
  /\ In (st_success "✅ No quality issues detected")
        (trace (display_results (fun s => s) (VDict []) "c" "q" "t"))
  /\ In (st_error "⚠️ Detected issues: ")
        (trace (display_results (fun s => s)
                  (VDict [("image_quality_issues", VList [])]) "c" "q" "t")).
Proof.
  split; [reflexivity |]. split.
  - intros H. apply (f_equal (fun m => nth_error (trace m) 10)) in H.
    vm_compute in H. discriminate H.
  - split; vm_compute; tauto.
Qed.

(** ** base64 *)

Lemma all_below_spec (n : nat) (p : N -> bool) :
  all_below n p = true -> forall x, (x < N.of_nat n)%N -> p x = true.
Proof.
  unfold all_below, below. rewrite forallb_forall. intros H x Hx.
  apply H. apply in_map_iff. exists (N.to_nat x). split.
  - apply N2Nat.id.
  - apply in_seq. lia.
Qed.

Lemma all_below2_spec (n m : nat) (p : N -> N -> bool) :
  all_below2 n m p = true ->
  forall x y, (x < N.of_nat n)%N -> (y < N.of_nat m)%N -> p x y = true.
Proof.
  unfold all_below2. intros H x y Hx Hy.
  apply (all_below_spec m (p x)); [| exact Hy].
  apply (all_below_spec n (fun x => all_below m (p x))); assumption.
Qed.

Lemma to_N_lt (b : byte) : (to_N b < N.of_nat 256)%N.
Proof. pose proof (to_N_bounded b). lia. Qed.

Lemma byte_of_to_N (b : byte) : byte_of_N (to_N b) = b.
Proof. unfold byte_of_N. now rewrite of_to_N. Qed.

Lemma b64_sextet_char (s : N) :
  (s < 64)%N ->
  b64_sextet (b64_char s) = Some s
  /\ Byte.eqb (b64_char s) b64_pad = false.
Proof.
  intros Hs.
  assert (H : all_below 64
                (fun s => match b64_sextet (b64_char s) with
                          | Some s' => N.eqb s' s
                          | None => false
                          end && negb (Byte.eqb (b64_char s) b64_pad))
              = true) by (vm_compute; reflexivity).
  pose proof (all_below_spec _ _ H s Hs) as E. cbn beta in E.
  apply andb_true_iff in E. destruct E as [E1 E2].
  destruct (b64_sextet (b64_char s)) as [s' |]; [| discriminate].
  apply N.eqb_eq in E1. subst s'. split; [reflexivity |].
  now apply negb_true_iff.
Qed.

Lemma sextets_bounded (x y : N) :
  (x < N.of_nat 256)%N -> (y < N.of_nat 256)%N ->
  (sextet0 x < 64)%N /\ (sextet1 x y < 64)%N
  /\ (sextet2 x y < 64)%N /\ (sextet3 x < 64)%N.
Proof.
  intros Hx Hy.
  assert (H : all_below2 256 256
                (fun x y => (sextet0 x <? 64)%N && (sextet1 x y <? 64)%N
                            && (sextet2 x y <? 64)%N && (sextet3 x <? 64)%N)
              = true) by (vm_compute; reflexivity).
  pose proof (all_below2_spec _ _ _ H x y Hx Hy) as E. cbn beta in E.
  rewrite !andb_true_iff, !N.ltb_lt in E. tauto.
Qed.

(** The octets read back from the sextets of a group. *)
Lemma octets_of_sextets (x y : N) :
  (x < N.of_nat 256)%N -> (y < N.of_nat 256)%N ->
  N.lor (N.shiftl (sextet0 x) 2) (N.shiftr (sextet1 x y) 4) = x
  /\ N.land (sextet1 x y) 15 = N.shiftr y 4
  /\ N.shiftr (sextet2 x y) 2 = N.land x 15
  /\ N.lor (N.shiftl (N.shiftr x 4) 4) (N.land x 15) = x
  /\ N.lor (N.shiftl (N.land (sextet2 x y) 3) 6) (sextet3 y) = y.
Proof.
  intros Hx Hy.
  assert (H : all_below2 256 256
    (fun x y =>
       N.eqb (N.lor (N.shiftl (sextet0 x) 2) (N.shiftr (sextet1 x y) 4)) x
       && N.eqb (N.land (sextet1 x y) 15) (N.shiftr y 4)
       && N.eqb (N.shiftr (sextet2 x y) 2) (N.land x 15)
       && N.eqb (N.lor (N.shiftl (N.shiftr x 4) 4) (N.land x 15)) x
       && N.eqb (N.lor (N.shiftl (N.land (sextet2 x y) 3) 6) (sextet3 y)) y)
    = true) by (vm_compute; reflexivity).
  pose proof (all_below2_spec _ _ _ H x y Hx Hy) as E. cbn beta in E.
  rewrite !andb_true_iff, !N.eqb_eq in E. tauto.
Qed.

Lemma octet0_sextets (a b : byte) :
  octet0 (sextet0 (to_N a)) (sextet1 (to_N a) (to_N b)) = a.
Proof.
  unfold octet0.
  destruct (octets_of_sextets (to_N a) (to_N b) (to_N_lt a) (to_N_lt b))
    as (-> & _).
  apply byte_of_to_N.
Qed.

Lemma octet0_sextets_pad (a : byte) :
  octet0 (sextet0 (to_N a)) (sextet1 (to_N a) 0) = a.
Proof.
  unfold octet0.
  destruct (octets_of_sextets (to_N a) 0 (to_N_lt a) eq_refl) as (-> & _).
  apply byte_of_to_N.
Qed.

Lemma octet1_sextets (a b : byte) (z : N) :
  (z < N.of_nat 256)%N ->
  octet1 (sextet1 (to_N a) (to_N b)) (sextet2 (to_N b) z) = b.
Proof.
  intros Hz. unfold octet1.
  destruct (octets_of_sextets (to_N a) (to_N b) (to_N_lt a) (to_N_lt b))
    as (_ & -> & _).
  destruct (octets_of_sextets (to_N b) z (to_N_lt b) Hz)
    as (_ & _ & -> & -> & _).
  apply byte_of_to_N.
Qed.

Lemma octet2_sextets (b c : byte) :
  octet2 (sextet2 (to_N b) (to_N c)) (sextet3 (to_N c)) = c.
Proof.
  unfold octet2.
  destruct (octets_of_sextets (to_N b) (to_N c) (to_N_lt b) (to_N_lt c))
    as (_ & _ & _ & _ & ->).
  apply byte_of_to_N.
Qed.

Lemma list_ind3 {A : Type} (P : list A -> Prop) :
  P [] ->
  (forall a, P [a]) ->
  (forall a b, P [a; b]) ->
  (forall a b c rest, P rest -> P (a :: b :: c :: rest)) ->
  forall l, P l.
Proof.
  intros H0 H1 H2 H3.
  assert (H : forall l, P l /\ (forall a, P (a :: l))
                        /\ (forall a b, P (a :: b :: l))).
  { induction l as [| x l (IH0 & IH1 & IH2)].
    - repeat split; auto.
    - repeat split; auto. }
  intros l. apply H.
Qed.

Ltac sextet_facts a b :=
  let H := fresh "Hsx" in
  pose proof (sextets_bounded a b) as H;
  match type of H with
  | ?P -> ?Q -> _ =>
      let Ha := fresh in let Hb := fresh in
      assert (Ha : P) by (try apply to_N_lt; reflexivity);
      assert (Hb : Q) by (try apply to_N_lt; reflexivity);
      specialize (H Ha Hb); clear Ha Hb
  end.

Lemma b64decode_b64encode (data : bytes) :
  b64decode (b64encode data) = Some data.
Proof.
  induction data as [| a | a b | a b c rest IH] using list_ind3.
  - reflexivity.
  - cbn [b64encode b64decode].
    sextet_facts (to_N a) 0%N. destruct Hsx as (H0 & H1 & _).
    destruct (b64_sextet_char _ H0) as [-> _].
    destruct (b64_sextet_char _ H1) as [-> _].
    unfold b64_pad at 1 2. cbn [Byte.eqb]. change x3d with b64_pad.
    assert (E : Byte.eqb b64_pad b64_pad = true) by reflexivity.
    rewrite E. now rewrite octet0_sextets_pad.
  - cbn [b64encode b64decode].
    sextet_facts (to_N a) (to_N b). destruct Hsx as (H0 & H1 & _).
    sextet_facts (to_N b) 0%N. destruct Hsx as (_ & _ & H2 & _).
    destruct (b64_sextet_char _ H0) as [-> _].
    destruct (b64_sextet_char _ H1) as [-> _].
    destruct (b64_sextet_char _ H2) as [-> ->].
    assert (E : Byte.eqb b64_pad b64_pad = true) by reflexivity.
    rewrite E. rewrite octet0_sextets, octet1_sextets by reflexivity.
    reflexivity.
  - cbn [b64encode b64decode].
    sextet_facts (to_N a) (to_N b). destruct Hsx as (H0 & H1 & _).
    sextet_facts (to_N b) (to_N c). destruct Hsx as (_ & _ & H2 & _).
    sextet_facts (to_N c) 0%N. destruct Hsx as (_ & _ & _ & H3).
    destruct (b64_sextet_char _ H0) as [-> _].
    destruct (b64_sextet_char _ H1) as [-> _].
    destruct (b64_sextet_char _ H2) as [-> _].
    destruct (b64_sextet_char _ H3) as [-> ->].
    rewrite IH.
    rewrite octet0_sextets, octet1_sextets, octet2_sextets by apply to_N_lt.
    reflexivity.
Qed.

Example b64encode_example :
  string_of_list_byte (b64encode (list_byte_of_string "light work."))
  = "bGlnaHQgd29yay4="
  /\ string_of_list_byte (b64encode (list_byte_of_string "light work"))
     = "bGlnaHQgd29yaw=="
  /\ string_of_list_byte (b64encode (list_byte_of_string "light wor"))
     = "bGlnaHQgd29y".
Proof. repeat split; reflexivity. Qed.

(** ** The script *)

Lemma try_except_raised {A : Type} (body : M A) (handler : exception -> M A)
    (e : exception) :
  outcome body = inl e ->
  try_except body handler
  = ((trace body ++ trace (handler e))%list, outcome (handler e)).
Proof.
  destruct body as [t [e' | a]]; cbn; intros H; [| discriminate].
  injection H as ->. destruct (handler e); reflexivity.
Qed.

Lemma try_except_ok {A : Type} (body : M A) (handler : exception -> M A)
    (a : A) :
  outcome body = inr a -> try_except body handler = (trace body, inr a).
Proof.
  destruct body as [t [e' | a']]; cbn; intros H; [discriminate |].
  now injection H as ->.
Qed.

Lemma main_after_form (str_repr : string -> string) (w : World)
    (f : FormInputs) (image : option Image) :
  outcome (input_form w f) = inr image ->
  main str_repr w f
  = (st_title "🍲 HungerBox Food Safety Analyzer"
       :: st_markdown
            "### AI-powered Compliance Assessment for Cafeteria Operations"
            false
       :: (trace (input_form w f)
             ++ trace (analysis_logic str_repr w f image))%list,
     outcome (analysis_logic str_repr w f image)).
Proof.
  intros Hf. unfold main. rewrite !bind_emit. cbn [trace outcome fst snd].
  destruct (trace_bind_ok (input_form w f)
              (fun image => analysis_logic str_repr w f image) image Hf)
    as [-> ->].
  reflexivity.
Qed.

Lemma main_form_raised (str_repr : string -> string) (w : World)
    (f : FormInputs) (e : exception) :
  outcome (input_form w f) = inl e ->
  main str_repr w f
  = (st_title "🍲 HungerBox Food Safety Analyzer"
       :: st_markdown
            "### AI-powered Compliance Assessment for Cafeteria Operations"
            false
       :: trace (input_form w f),
     inl e).
Proof.
  intros Hf. unfold main. rewrite !bind_emit. cbn [trace outcome fst snd].
  destruct (bind_raised (input_form w f)
              (fun image => analysis_logic str_repr w f image) e Hf)
    as [-> ->].
  reflexivity.
Qed.

(** The form draws widgets and the preview only. *)
Lemma input_form_draws_only (w : World) (f : FormInputs) (p : event -> bool) :
  (forall ev, p ev = true ->
              is_error ev || is_save ev || is_api_call ev = true) ->
  Forall (fun ev => p ev = false) (trace (input_form w f)).
Proof.
  intros Hp.
  assert (Hq : forall ev, is_error ev || is_save ev || is_api_call ev = false ->
                          p ev = false).
  { intros ev Hev. destruct (p ev) eqn:E; [| reflexivity].
    apply Hp in E. congruence. }
  unfold input_form.
  repeat first
    [ apply none_bind; [| intros ? ?]
    | apply none_emit; apply Hq; reflexivity
    | apply none_lift
    | apply none_ret
    | match goal with
      | |- context [match ?x with _ => _ end] => destruct x
      end
    | constructor ].
Qed.

Lemma all_filled_false (f : FormInputs) :
  api_key f = "" \/ cafeteria_name f = "" \/ question f = ""
  \/ uploaded_image f = None <->
  all_filled f = false.
Proof.
  unfold all_filled. cbn [forallb].
  destruct (String.eqb_spec (api_key f) ""),
    (String.eqb_spec (cafeteria_name f) ""),
    (String.eqb_spec (question f) ""), (uploaded_image f);
    cbn; split; intros H; try reflexivity; try discriminate; try tauto.
  destruct H as [H | [H | [H | H]]]; congruence.
Qed.

Lemma analysis_logic_rejects (str_repr : string -> string) (w : World)
    (f : FormInputs) (image : option Image) :
  submitted f = true -> all_filled f = false ->
  analysis_logic str_repr w f image
  = ([st_error "⚠️ Please fill all required fields and upload an image"],
     inr tt).
Proof. intros Hs Ha. unfold analysis_logic. now rewrite Hs, Ha. Qed.

(** C1, as the script has it: when one of the four inputs is missing or
    empty, no picture is encoded and no request is sent, whatever happens;
    and the validation error is the last thing shown, with nothing raised,
    as soon as the form itself was drawn without an exception (the preview
    of an uploaded file is opened inside the form, before the check). *)
Theorem missing_input_is_rejected (str_repr : string -> string) (w : World)
    (f : FormInputs) :
  submitted f = true ->
  api_key f = "" \/ cafeteria_name f = "" \/ question f = ""
  \/ uploaded_image f = None ->
  (forall ev, In ev (trace (main str_repr w f)) ->
              is_save ev = false /\ is_api_call ev = false)
  /\ (forall image, outcome (input_form w f) = inr image ->
        main str_repr w f
        = (st_title "🍲 HungerBox Food Safety Analyzer"
             :: st_markdown
                  "### AI-powered Compliance Assessment for Cafeteria Operations"
                  false
             :: (trace (input_form w f)
                   ++ [st_error
                         "⚠️ Please fill all required fields and upload an image"])%list,
           inr tt)).
Proof.
  intros Hs Hmiss. apply all_filled_false in Hmiss.
  assert (Hform : forall p,
            (forall ev, p ev = true ->
                        is_error ev || is_save ev || is_api_call ev = true) ->
            p (st_error "") = false ->
            (forall body, p (st_error body) = p (st_error "")) ->
            Forall (fun ev => p ev = false) (trace (main str_repr w f))).
  { intros p Hp He Hb.
    destruct (outcome (input_form w f)) as [e | image] eqn:Hf.
    - rewrite (main_form_raised _ _ _ _ Hf). cbn [trace fst].
      repeat constructor.
      + destruct (p (st_title _)) eqn:E; [apply Hp in E; discriminate E | easy].
      + destruct (p (st_markdown _ _)) eqn:E;
          [apply Hp in E; discriminate E | easy].
      + now apply input_form_draws_only.
    - rewrite (main_after_form _ _ _ _ Hf). cbn [trace fst].
      rewrite (analysis_logic_rejects _ _ _ _ Hs Hmiss). cbn [trace fst].
      repeat constructor.
      + destruct (p (st_title _)) eqn:E; [apply Hp in E; discriminate E | easy].
      + destruct (p (st_markdown _ _)) eqn:E;
          [apply Hp in E; discriminate E | easy].
      + apply Forall_app. split; [now apply input_form_draws_only |].
        repeat constructor. now rewrite Hb. }
  split.
  - intros ev Hin. split.
    + pose proof (Hform is_save) as H. rewrite Forall_forall in H.
      apply H; trivial. intros ev' E. rewrite E. now rewrite orb_true_r.
    + pose proof (Hform is_api_call) as H. rewrite Forall_forall in H.
      apply H; trivial. intros ev' E. rewrite E. now rewrite orb_true_r.
  - intros image Hf. rewrite (main_after_form _ _ _ _ Hf).
    now rewrite (analysis_logic_rejects _ _ _ _ Hs Hmiss).
Qed.

Lemma missing_input_is_rejected_witness :
  main (fun s => s) (sample_world (inr (mkResponse [])) (inr VNone))
    (mkFormInputs "" "Canteen 4" "Is the counter clean?"
       (Some sample_picture) true)
  = (st_title "🍲 HungerBox Food Safety Analyzer"
       :: st_markdown
            "### AI-powered Compliance Assessment for Cafeteria Operations"
            false
       :: (trace (input_form (sample_world (inr (mkResponse [])) (inr VNone))
                    (mkFormInputs "" "Canteen 4" "Is the counter clean?"
                       (Some sample_picture) true))
             ++ [st_error
                   "⚠️ Please fill all required fields and upload an image"])%list,
     inr tt).
Proof.
  refine (proj2 (missing_input_is_rejected (fun s => s)
                   (sample_world (inr (mkResponse [])) (inr VNone))
                   (mkFormInputs "" "Canteen 4" "Is the counter clean?"
                      (Some sample_picture) true) eq_refl _)
            (Some (raw_row [x10; x20; x30])) eq_refl).
  left. reflexivity.
Defined.

(** C1, as it is worded, promises the validation error for every
    submission with a missing input.  With an empty key and an uploaded
    file that Pillow cannot open, [Image.open] raises inside the form,
    before the check is reached: the exception leaves [main] and no
    validation error is shown. *)
Lemma validation_error_lost_when_preview_fails :
  let w := sample_world (inr (mkResponse [])) (inr VNone) in
  let f := mkFormInputs "" "Canteen 4" "Is the counter clean?"
             (Some [x00]) true in
  submitted f = true
  /\ api_key f = ""
  /\ outcome (main (fun s => s) w f) = inl UnidentifiedImageError
  /\ forall body, ~ In (st_error body) (trace (main (fun s => s) w f)).
Proof.
  cbv zeta. repeat split.
  intros body H. vm_compute in H.
  repeat (destruct H as [H | H]; [discriminate H |]). exact H.
Qed.

(** ** The analysis and its failures *)

Ltac run_block :=
  cbn [bind emit lift ret raise trace outcome fst snd app].

Lemma analysis_save_failed (str_repr : string -> string) (w : World)
    (f : FormInputs) (image : Image) (e : exception) :
  Image_save w image "PNG" = inl e ->
  analysis str_repr w f (Some image)
  = ([st_spinner "🔍 Analyzing image and preparing report...";
      call_Image_save image "PNG"], inl e).
Proof.
  intros Hs. unfold analysis, encode_image. run_block. rewrite Hs. reflexivity.
Qed.

Lemma analysis_api_failed (str_repr : string -> string) (w : World)
    (f : FormInputs) (image : Image) (png : bytes) (e : exception) :
  Image_save w image "PNG" = inr png ->
  chat_completions_create w
    (build_request f (string_of_list_byte (b64encode png))) = inl e ->
  analysis str_repr w f (Some image)
  = ([st_spinner "🔍 Analyzing image and preparing report...";
      call_Image_save image "PNG";
      call_chat_completions_create
        (build_request f (string_of_list_byte (b64encode png)))], inl e).
Proof.
  intros Hs Hc. unfold analysis, encode_image. run_block. rewrite Hs. run_block.
  rewrite Hc. reflexivity.
Qed.

Lemma analysis_parse_failed (str_repr : string -> string) (w : World)
    (f : FormInputs) (image : Image) (png : bytes) (resp : response)
    (e : exception) :
  Image_save w image "PNG" = inr png ->
  chat_completions_create w
    (build_request f (string_of_list_byte (b64encode png))) = inr resp ->
  parse_response w resp = inl e ->
  analysis str_repr w f (Some image)
  = ([st_spinner "🔍 Analyzing image and preparing report...";
      call_Image_save image "PNG";
      call_chat_completions_create
        (build_request f (string_of_list_byte (b64encode png)))], inl e).
Proof.
  intros Hs Hc Hp. unfold analysis, encode_image. run_block. rewrite Hs. run_block.
  rewrite Hc. run_block. rewrite Hp. reflexivity.
Qed.

Lemma analysis_parsed (str_repr : string -> string) (w : World)
    (f : FormInputs) (image : Image) (png : bytes) (resp : response)
    (result : value) :
  Image_save w image "PNG" = inr png ->
  chat_completions_create w
    (build_request f (string_of_list_byte (b64encode png))) = inr resp ->
  parse_response w resp = inr result ->
  analysis str_repr w f (Some image)
  = (st_spinner "🔍 Analyzing image and preparing report..."
       :: call_Image_save image "PNG"
       :: call_chat_completions_create
            (build_request f (string_of_list_byte (b64encode png)))
       :: st_success "✅ Analysis Complete!"
       :: trace (display_results str_repr result (cafeteria_name f)
                   (question f) (now_strftime w)),
     outcome (display_results str_repr result (cafeteria_name f)
                (question f) (now_strftime w))).
Proof.
  intros Hs Hc Hp. unfold analysis, encode_image. run_block. rewrite Hs. run_block.
  rewrite Hc. run_block. rewrite Hp. run_block.
  destruct (display_results str_repr result (cafeteria_name f) (question f)
              (now_strftime w)); reflexivity.
Qed.

Lemma analysis_logic_runs (str_repr : string -> string) (w : World)
    (f : FormInputs) (image : option Image) :
  submitted f = true -> all_filled f = true ->
  analysis_logic str_repr w f image
  = try_except (analysis str_repr w f image)
      (fun e => emit (st_error ("Analysis failed: " ++ exc_str e))).
Proof. intros Hs Ha. unfold analysis_logic. now rewrite Hs, Ha. Qed.


Lemma count_app (p : event -> bool) (t t' : list event) :
  count p (t ++ t') = (count p t + count p t')%nat.
Proof. unfold count. now rewrite filter_app, length_app. Qed.

Lemma count_cons (p : event -> bool) (ev : event) (t : list event) :
  count p (ev :: t) = ((if p ev then 1 else 0) + count p t)%nat.
Proof. unfold count. cbn. now destruct (p ev). Qed.

Lemma count_none (p : event -> bool) (t : list event) :
  Forall (fun ev => p ev = false) t -> count p t = 0%nat.
Proof.
  unfold count. induction 1 as [| ev t Hev _ IH]; cbn; [reflexivity |].
  now rewrite Hev.
Qed.



(** Whatever is raised inside the [try] block, the rendering included, is
    caught: once the form is drawn, [main] ends normally. *)
Lemma main_returns_once_form_is_drawn (str_repr : string -> string)
    (w : World) (f : FormInputs) (image : option Image) :
  outcome (input_form w f) = inr image ->
  outcome (main str_repr w f) = inr tt.
Proof.
  intros Hf. rewrite (main_after_form _ _ _ _ Hf). cbn [outcome snd].
  unfold analysis_logic.
  destruct (submitted f); [| reflexivity].
  destruct (negb (all_filled f)); [reflexivity |].
  destruct (analysis str_repr w f image) as [t [e | []]]; reflexivity.
Qed.


Lemma input_form_preview (w : World) (f : FormInputs) (file : bytes)
    (image : Image) :
  uploaded_image f = Some file ->
  Image_open w file = inr image ->
  st_image_load w image = None ->
  outcome (input_form w f) = inr (Some image).
Proof.
  intros Hu Ho Hl. unfold input_form. rewrite Hu. run_block.
  rewrite Ho. run_block. rewrite Hl. reflexivity.
Qed.

Lemma successful_run (str_repr : string -> string) (w : World)
    (f : FormInputs) (image : Image) (result : value) :
  submitted f = true ->
  all_filled f = true ->
  outcome (input_form w f) = inr (Some image) ->
  analysis_yields w f image result ->
  outcome (main str_repr w f) = inr tt
  /\ exists before,
       trace (main str_repr w f)
       = (before
            ++ st_success "✅ Analysis Complete!"
            :: rendered_report str_repr result (cafeteria_name f)
                 (question f) (now_strftime w))%list.
Proof.
  intros Hs Ha Hf (png & resp & Hsave & Hcall & Hparse).
  split; [now apply main_returns_once_form_is_drawn with (image := Some image) |].
  rewrite (main_after_form _ _ _ _ Hf).
  rewrite (analysis_logic_runs _ _ _ _ Hs Ha).
  rewrite (analysis_parsed _ _ _ _ _ _ _ Hsave Hcall Hparse).
  unfold rendered_report.
  destruct (display_results str_repr result (cafeteria_name f) (question f)
              (now_strftime w)) as [t [e | []]]; cbn [trace outcome fst snd try_except emit].
  - eexists (_ :: _ :: _ ++ [_; _; _])%list.
    cbn [app]. do 2 f_equal. rewrite <- app_assoc. reflexivity.
  - eexists (_ :: _ :: _ ++ [_; _; _])%list.
    cbn [app]. do 2 f_equal. rewrite <- app_assoc. reflexivity.
Qed.

(** ** The transport form of the picture *)






(** * Further properties of the script *)

(** ** The form *)

Lemma input_form_without_upload (w : World) (f : FormInputs) :
  uploaded_image f = None ->
  input_form w f
  = ((form_widgets ++ [st_form_submit_button "Analyze Compliance"])%list,
     inr None).
Proof. intros Hu. unfold input_form. rewrite Hu. reflexivity. Qed.

Lemma input_form_open_failed (w : World) (f : FormInputs) (file : bytes)
    (e : exception) :
  uploaded_image f = Some file -> Image_open w file = inl e ->
  input_form w f = (form_widgets, inl e).
Proof.
  intros Hu Ho. unfold input_form. rewrite Hu. run_block. rewrite Ho.
  reflexivity.
Qed.

Lemma input_form_load_failed (w : World) (f : FormInputs) (file : bytes)
    (image : Image) (e : exception) :
  uploaded_image f = Some file -> Image_open w file = inr image ->
  st_image_load w image = Some e ->
  input_form w f = (form_widgets, inl e).
Proof.
  intros Hu Ho Hl. unfold input_form. rewrite Hu. run_block. rewrite Ho.
  run_block. rewrite Hl. reflexivity.
Qed.

Lemma input_form_with_preview (w : World) (f : FormInputs) (file : bytes)
    (image : Image) :
  uploaded_image f = Some file -> Image_open w file = inr image ->
  st_image_load w image = None ->
  input_form w f
  = ((form_widgets
        ++ [st_image image "Preview of Uploaded Image";
            st_form_submit_button "Analyze Compliance"])%list,
     inr (Some image)).
Proof.
  intros Hu Ho Hl. unfold input_form. rewrite Hu. run_block. rewrite Ho.
  run_block. rewrite Hl. reflexivity.
Qed.

Lemma input_form_yields (w : World) (f : FormInputs) (image : option Image) :
  outcome (input_form w f) = inr image ->
  match uploaded_image f with
  | None => image = None
  | Some file =>
      exists im, image = Some im /\ Image_open w file = inr im
                 /\ st_image_load w im = None
  end.
Proof.
  destruct (uploaded_image f) as [file |] eqn:Hu.
  - destruct (Image_open w file) as [e | im] eqn:Ho.
    + rewrite (input_form_open_failed _ _ _ _ Hu Ho). discriminate.
    + destruct (st_image_load w im) as [e |] eqn:Hl.
      * rewrite (input_form_load_failed _ _ _ _ _ Hu Ho Hl). discriminate.
      * rewrite (input_form_with_preview _ _ _ _ Hu Ho Hl).
        intros [= <-]. now exists im.
  - rewrite (input_form_without_upload _ _ Hu). now intros [= <-].
Qed.

(** ** The shapes a run can take *)

Lemma all_filled_upload (f : FormInputs) :
  all_filled f = true -> exists file, uploaded_image f = Some file.
Proof.
  unfold all_filled. cbn [forallb]. rewrite !andb_true_iff.
  intros (_ & _ & _ & H & _).
  destruct (uploaded_image f) as [file |]; [now exists file | discriminate].
Qed.

Lemma all_filled_true (f : FormInputs) :
  all_filled f = true <->
  api_key f <> "" /\ cafeteria_name f <> "" /\ question f <> ""
  /\ uploaded_image f <> None.
Proof.
  destruct (all_filled f) eqn:E.
  - split; [intros _ | reflexivity].
    repeat split; intros H;
      assert (all_filled f = false) by (apply all_filled_false; tauto);
      congruence.
  - split; [discriminate |]. intros (Hk & Hc & Hq & Hu).
    apply all_filled_false in E. tauto.
Qed.

Lemma rendered_report_eq (str_repr : string -> string) (result : value)
    (c q t : string) :
  rendered_report str_repr result c q t
  = (trace (display_results str_repr result c q t)
       ++ match outcome (display_results str_repr result c q t) with
          | inl e => [failure_line e]
          | inr _ => []
          end)%list.
Proof.
  unfold rendered_report.
  destruct (display_results str_repr result c q t) as [tr [e | []]];
    cbn; [reflexivity | now rewrite app_nil_r].
Qed.

Lemma analysis_logic_cases (str_repr : string -> string) (w : World)
    (f : FormInputs) (image : option Image) :
  outcome (input_form w f) = inr image ->
  (submitted f = false /\ analysis_logic str_repr w f image = ([], inr tt))
  \/ (submitted f = true /\ all_filled f = false
      /\ analysis_logic str_repr w f image
         = ([st_error
               "⚠️ Please fill all required fields and upload an image"],
            inr tt))
  \/ (exists im e calls,
        submitted f = true /\ all_filled f = true /\ image = Some im
        /\ stage_failure w f im e
        /\ analysis_logic str_repr w f image
           = ((st_spinner "🔍 Analyzing image and preparing report..."
                 :: calls ++ [failure_line e])%list, inr tt)
        /\ (calls = [call_Image_save im "PNG"]
            \/ exists png,
                 Image_save w im "PNG" = inr png
                 /\ calls
                    = [call_Image_save im "PNG";
                       call_chat_completions_create
                         (build_request f
                            (string_of_list_byte (b64encode png)))]))
  \/ (exists im png resp result,
        submitted f = true /\ all_filled f = true /\ image = Some im
        /\ Image_save w im "PNG" = inr png
        /\ chat_completions_create w
             (build_request f (string_of_list_byte (b64encode png)))
           = inr resp
        /\ parse_response w resp = inr result
        /\ analysis_logic str_repr w f image
           = (st_spinner "🔍 Analyzing image and preparing report..."
                :: call_Image_save im "PNG"
                :: call_chat_completions_create
                     (build_request f (string_of_list_byte (b64encode png)))
                :: st_success "✅ Analysis Complete!"
                :: rendered_report str_repr result (cafeteria_name f)
                     (question f) (now_strftime w),
              inr tt)).
Proof.
  intros Hf.
  destruct (submitted f) eqn:Hs.
  2:{ left. split; [reflexivity |]. unfold analysis_logic. now rewrite Hs. }
  destruct (all_filled f) eqn:Ha.
  2:{ right; left. repeat split. now apply analysis_logic_rejects. }
  right; right.
  destruct (all_filled_upload f Ha) as [file Hu].
  pose proof (input_form_yields w f image Hf) as Hy. rewrite Hu in Hy.
  destruct Hy as (im & -> & Ho & Hl).
  rewrite (analysis_logic_runs _ _ _ _ Hs Ha).
  destruct (Image_save w im "PNG") as [e | png] eqn:Hsave.
  { left. exists im, e, [call_Image_save im "PNG"].
    repeat split; [now apply reencoding_failed | | now left].
    rewrite (try_except_raised _ _ e)
      by now rewrite (analysis_save_failed _ _ _ _ _ Hsave).
    now rewrite (analysis_save_failed _ _ _ _ _ Hsave). }
  destruct (chat_completions_create w
              (build_request f (string_of_list_byte (b64encode png))))
    as [e | resp] eqn:Hc.
  { left.
    exists im, e,
      [call_Image_save im "PNG";
       call_chat_completions_create
         (build_request f (string_of_list_byte (b64encode png)))].
    repeat split; [now apply api_call_failed with (png := png) | |
                   right; exists png; split; [exact Hsave | reflexivity]].
    rewrite (try_except_raised _ _ e)
      by now rewrite (analysis_api_failed _ _ _ _ _ _ Hsave Hc).
    now rewrite (analysis_api_failed _ _ _ _ _ _ Hsave Hc). }
  destruct (parse_response w resp) as [e | result] eqn:Hp.
  { left.
    exists im, e,
      [call_Image_save im "PNG";
       call_chat_completions_create
         (build_request f (string_of_list_byte (b64encode png)))].
    repeat split;
      [now apply parsing_failed with (png := png) (resp := resp) | |
       right; exists png; split; [exact Hsave | reflexivity]].
    rewrite (try_except_raised _ _ e)
      by now rewrite (analysis_parse_failed _ _ _ _ _ _ _ Hsave Hc Hp).
    now rewrite (analysis_parse_failed _ _ _ _ _ _ _ Hsave Hc Hp). }
  right. exists im, png, resp, result. repeat split; trivial.
  rewrite (analysis_parsed _ _ _ _ _ _ _ Hsave Hc Hp).
  unfold rendered_report.
  destruct (display_results str_repr result (cafeteria_name f) (question f)
              (now_strftime w)) as [t [e | []]]; reflexivity.
Qed.

Lemma display_results_draws_only (str_repr : string -> string)
    (result : value) (c q t : string) (p : event -> bool) :
  (forall ev, p ev = true ->
              is_save ev || is_api_call ev || is_preview ev = true) ->
  Forall (fun ev => p ev = false)
         (trace (display_results str_repr result c q t)).
Proof.
  intros Hp.
  assert (Hq : forall ev,
            is_save ev || is_api_call ev || is_preview ev = false ->
            p ev = false).
  { intros ev Hev. destruct (p ev) eqn:E; [| reflexivity].
    apply Hp in E. congruence. }
  unfold display_results, display_main_metrics, display_quality_assessment,
    display_detailed_analysis.
  repeat first
    [ apply none_bind; [| intros ? ?]
    | apply none_emit; apply Hq; reflexivity
    | apply none_lift
    | apply none_ret
    | match goal with
      | |- context [if ?b then _ else _] => destruct b
      end ].
Qed.

Lemma rendered_report_draws_only (str_repr : string -> string)
    (result : value) (c q t : string) (p : event -> bool) :
  (forall ev, p ev = true ->
              is_save ev || is_api_call ev || is_preview ev = true) ->
  Forall (fun ev => p ev = false) (rendered_report str_repr result c q t).
Proof.
  intros Hp. rewrite rendered_report_eq. apply Forall_app. split.
  - now apply display_results_draws_only.
  - destruct (outcome _) as [e | u]; [| constructor].
    repeat constructor. destruct (p (failure_line e)) eqn:E; [| reflexivity].
    apply Hp in E. discriminate E.
Qed.

Lemma main_cases (str_repr : string -> string) (w : World) (f : FormInputs) :
  (exists e,
     outcome (input_form w f) = inl e
     /\ main str_repr w f
        = ((main_header ++ trace (input_form w f))%list, inl e))
  \/ (exists image,
        outcome (input_form w f) = inr image
        /\ main str_repr w f
           = ((main_header ++ trace (input_form w f)
                 ++ trace (analysis_logic str_repr w f image))%list, inr tt)).
Proof.
  destruct (outcome (input_form w f)) as [e | image] eqn:Hf.
  - left. exists e. split; [reflexivity |]. now apply main_form_raised.
  - right. exists image. split; [reflexivity |].
    rewrite (main_after_form _ _ _ _ Hf). unfold main_header. cbn [app].
    do 2 f_equal.
    destruct (analysis_logic_cases str_repr w f image Hf)
      as [[_ ->] | [(_ & _ & ->) | [(im & e & calls & _ & _ & _ & _ & -> & _)
                                   | (im & png & resp & result & _ & _ & _
                                      & _ & _ & _ & ->)]]];
      reflexivity.
Qed.

Lemma in_main_trace (str_repr : string -> string) (w : World)
    (f : FormInputs) (ev : event) :
  In ev (trace (main str_repr w f)) ->
  In ev main_header \/ In ev (trace (input_form w f))
  \/ exists image,
       outcome (input_form w f) = inr image
       /\ In ev (trace (analysis_logic str_repr w f image)).
Proof.
  destruct (main_cases str_repr w f) as [(e & Hf & ->) | (image & Hf & ->)];
    cbn [trace fst]; rewrite ?in_app_iff; intros H.
  - tauto.
  - destruct H as [H | [H | H]]; [tauto | tauto |].
    right; right. now exists image.
Qed.

Lemma form_makes_no_call (w : World) (f : FormInputs) (ev : event) :
  In ev (trace (input_form w f)) ->
  is_error ev = false /\ is_save ev = false /\ is_api_call ev = false.
Proof.
  intros Hin. repeat split.
  - pose proof (input_form_draws_only w f is_error) as H.
    rewrite Forall_forall in H. apply H; trivial.
    intros ev' ->. reflexivity.
  - pose proof (input_form_draws_only w f is_save) as H.
    rewrite Forall_forall in H. apply H; trivial.
    intros ev' ->. now rewrite orb_true_r.
  - pose proof (input_form_draws_only w f is_api_call) as H.
    rewrite Forall_forall in H. apply H; trivial.
    intros ev' ->. now rewrite orb_true_r.
Qed.

Lemma report_makes_no_call (str_repr : string -> string) (result : value)
    (c q t : string) (ev : event) :
  In ev (rendered_report str_repr result c q t) ->
  is_save ev = false /\ is_api_call ev = false /\ is_preview ev = false.
Proof.
  intros Hin. repeat split.
  - pose proof (rendered_report_draws_only str_repr result c q t is_save) as H.
    rewrite Forall_forall in H. apply H; trivial. intros ev' ->. reflexivity.
  - pose proof (rendered_report_draws_only str_repr result c q t is_api_call)
      as H.
    rewrite Forall_forall in H. apply H; trivial.
    intros ev' ->. now rewrite orb_true_r.
  - pose proof (rendered_report_draws_only str_repr result c q t is_preview)
      as H.
    rewrite Forall_forall in H. apply H; trivial.
    intros ev' ->. now rewrite orb_true_r.
Qed.

(** ** What escapes, what is sent *)

(** X1: an exception leaves [main] exactly when a file was uploaded and
    Pillow could not open it or Streamlit could not load it for the
    preview; everything else is caught. *)
Theorem uncaught_exceptions_come_from_the_preview
    (str_repr : string -> string) (w : World) (f : FormInputs)
    (e : exception) :
  outcome (main str_repr w f) = inl e
  <-> exists file,
        uploaded_image f = Some file
        /\ (Image_open w file = inl e
            \/ exists image, Image_open w file = inr image
                             /\ st_image_load w image = Some e).
Proof.
  split.
  - intros Hm.
    destruct (uploaded_image f) as [file |] eqn:Hu.
    + exists file. split; [reflexivity |].
      destruct (Image_open w file) as [e' | im] eqn:Ho.
      * left. rewrite (main_form_raised str_repr w f e') in Hm
          by now rewrite (input_form_open_failed _ _ _ _ Hu Ho).
        cbn in Hm. congruence.
      * right. exists im. split; [reflexivity |].
        destruct (st_image_load w im) as [e' |] eqn:Hl.
        -- rewrite (main_form_raised str_repr w f e') in Hm
             by now rewrite (input_form_load_failed _ _ _ _ _ Hu Ho Hl).
           cbn in Hm. congruence.
        -- rewrite (main_returns_once_form_is_drawn str_repr w f (Some im))
             in Hm by now rewrite (input_form_with_preview _ _ _ _ Hu Ho Hl).
           discriminate.
    + rewrite (main_returns_once_form_is_drawn str_repr w f None) in Hm
        by now rewrite (input_form_without_upload _ _ Hu).
      discriminate.
  - intros (file & Hu & [Ho | (im & Ho & Hl)]).
    + now rewrite (main_form_raised str_repr w f e)
        by now rewrite (input_form_open_failed _ _ _ _ Hu Ho).
    + now rewrite (main_form_raised str_repr w f e)
        by now rewrite (input_form_load_failed _ _ _ _ _ Hu Ho Hl).
Qed.



Lemma analysis_logic_trace_cases (str_repr : string -> string) (w : World)
    (f : FormInputs) (image : option Image) :
  outcome (input_form w f) = inr image ->
  (submitted f = false /\ trace (analysis_logic str_repr w f image) = [])
  \/ (submitted f = true /\ all_filled f = false
      /\ trace (analysis_logic str_repr w f image) = [validation_line])
  \/ (exists im e,
        image = Some im /\ submitted f = true /\ all_filled f = true
        /\ (trace (analysis_logic str_repr w f image)
            = [st_spinner "🔍 Analyzing image and preparing report...";
               call_Image_save im "PNG"; failure_line e]
            \/ exists png,
                 Image_save w im "PNG" = inr png
                 /\ trace (analysis_logic str_repr w f image)
                    = [st_spinner "🔍 Analyzing image and preparing report...";
                       call_Image_save im "PNG";
                       call_chat_completions_create
                         (build_request f
                            (string_of_list_byte (b64encode png)));
                       failure_line e]))
  \/ (exists im png result,
        image = Some im /\ submitted f = true /\ all_filled f = true
        /\ Image_save w im "PNG" = inr png
        /\ trace (analysis_logic str_repr w f image)
           = st_spinner "🔍 Analyzing image and preparing report..."
               :: call_Image_save im "PNG"
               :: call_chat_completions_create
                    (build_request f (string_of_list_byte (b64encode png)))
               :: st_success "✅ Analysis Complete!"
               :: rendered_report str_repr result (cafeteria_name f)
                    (question f) (now_strftime w)).
Proof.
  intros Hf.
  destruct (analysis_logic_cases str_repr w f image Hf)
    as [[Hs ->] | [(Hs & Ha & ->)
                 | [(im & e & calls & Hs & Ha & Hi & _ & -> & Hc)
                   | (im & png & resp & result & Hs & Ha & Hi & Hsave & _ & _
                      & ->)]]].
  - left. now split.
  - right; left. repeat split; trivial.
  - right; right; left. exists im, e. repeat split; trivial.
    destruct Hc as [-> | (png & Hsave & ->)]; [now left |].
    right. exists png. split; [exact Hsave | reflexivity].
  - right; right; right. exists im, png, result. repeat split; trivial.
Qed.

(** X3: an uploaded file that Pillow opens and that [st.image] loads
    without an exception is previewed on every run, submitted or not and
    whatever the other fields hold, and it is shown once. *)
Theorem preview_is_shown_once (str_repr : string -> string) (w : World)
    (f : FormInputs) (file : bytes) (image : Image) :
  uploaded_image f = Some file ->
  Image_open w file = inr image ->
  st_image_load w image = None ->
  In (st_image image "Preview of Uploaded Image")
     (trace (main str_repr w f))
  /\ count is_preview (trace (main str_repr w f)) = 1%nat.
Proof.
  intros Hu Ho Hl.
  pose proof (input_form_with_preview w f file image Hu Ho Hl) as Hform.
  assert (Hf : outcome (input_form w f) = inr (Some image))
    by now rewrite Hform.
  destruct (main_cases str_repr w f) as [(e & Hf' & _) | (image' & Hf' & ->)];
    [congruence |].
  assert (image' = Some image) by congruence. subst image'.
  rewrite Hform. cbn [trace fst]. split.
  - apply in_or_app. right. apply in_or_app. left.
    apply in_or_app. right. now left.
  - rewrite !count_app. cbn [count filter is_preview main_header form_widgets
                               app length].
    replace (count is_preview
               (trace (analysis_logic str_repr w f (Some image))))
      with 0%nat; [reflexivity |].
    symmetry. apply count_none.
    destruct (analysis_logic_trace_cases str_repr w f (Some image) Hf)
      as [[_ ->] | [(_ & _ & ->)
                   | [(im & e & _ & _ & _ & [-> | (png & _ & ->)])
                     | (im & png & result & _ & _ & _ & _ & ->)]]];
      repeat constructor.
    apply Forall_forall. intros ev Hin.
    now apply (report_makes_no_call str_repr result (cafeteria_name f)
                 (question f) (now_strftime w)).
Qed.

Lemma preview_is_shown_once_witness :
  count is_preview
    (trace (main (fun s => s) (sample_world (inr (mkResponse [])) (inr VNone))
              (mkFormInputs "" "" "" (Some sample_picture) true)))
  = 1%nat.
Proof.
  exact (proj2 (preview_is_shown_once (fun s => s)
                  (sample_world (inr (mkResponse [])) (inr VNone))
                  (mkFormInputs "" "" "" (Some sample_picture) true)
                  sample_picture (raw_row [x10; x20; x30])
                  eq_refl eq_refl eq_refl)).
Defined.

Lemma count_form_calls (w : World) (f : FormInputs) :
  count is_save (trace (input_form w f)) = 0%nat
  /\ count is_api_call (trace (input_form w f)) = 0%nat.
Proof.
  split; apply count_none, Forall_forall; intros ev Hin;
    now apply (form_makes_no_call w f).
Qed.

Lemma count_report_calls (str_repr : string -> string) (result : value)
    (c q t : string) :
  count is_save (rendered_report str_repr result c q t) = 0%nat
  /\ count is_api_call (rendered_report str_repr result c q t) = 0%nat.
Proof.
  split; apply count_none, Forall_forall; intros ev Hin;
    now apply (report_makes_no_call str_repr result c q t).
Qed.

(** X4: no run hands the picture to [image.save] more than once, and no
    run sends more requests than that; and a request is sent only right
    after the call to [image.save], on a picture for which that call
    returned bytes. *)
Theorem endpoint_called_at_most_once (str_repr : string -> string)
    (w : World) (f : FormInputs) :
  (count is_api_call (trace (main str_repr w f))
   <= count is_save (trace (main str_repr w f)))%nat
  /\ (count is_save (trace (main str_repr w f)) <= 1)%nat
  /\ forall req,
       In (call_chat_completions_create req) (trace (main str_repr w f)) ->
       exists before image png after,
         trace (main str_repr w f)
         = (before ++ call_Image_save image "PNG"
              :: call_chat_completions_create req :: after)%list
         /\ Image_save w image "PNG" = inr png.
Proof.
  destruct (count_form_calls w f) as [Hfs Hfa].
  assert (Hnf : forall req,
            ~ In (call_chat_completions_create req)
                 (main_header ++ trace (input_form w f))%list).
  { intros req H. apply in_app_iff in H. destruct H as [H | H].
    - cbn in H. destruct H as [H | [H | []]]; discriminate H.
    - apply (form_makes_no_call w f) in H. now destruct H as (_ & _ & H). }
  destruct (main_cases str_repr w f) as [(e & Hf & ->) | (image & Hf & ->)];
    cbn [trace fst].
  - rewrite !count_app, ?Hfs, ?Hfa. repeat split; try (cbn; lia).
    intros req H. now contradiction (Hnf req).
  - rewrite !count_app, ?Hfs, ?Hfa.
    destruct (analysis_logic_trace_cases str_repr w f image Hf)
      as [[_ ->] | [(_ & _ & ->)
                   | [(im & e & _ & _ & _ & [-> | (png & Hsave & ->)])
                     | (im & png & result & _ & _ & _ & Hsave & ->)]]].
    + repeat split; try (cbn; lia). intros req H.
      rewrite app_assoc, in_app_iff in H. destruct H as [H | []].
      now contradiction (Hnf req).
    + repeat split; try (cbn; lia). intros req H.
      rewrite app_assoc, in_app_iff in H. destruct H as [H | H];
        [now contradiction (Hnf req) |].
      destruct H as [H | []]; discriminate H.
    + repeat split; try (cbn; lia). intros req H.
      rewrite app_assoc, in_app_iff in H. destruct H as [H | H];
        [now contradiction (Hnf req) |].
      destruct H as [H | [H | [H | []]]]; discriminate H.
    + repeat split; try (cbn; lia). intros req H.
      rewrite app_assoc, in_app_iff in H. destruct H as [H | H];
        [now contradiction (Hnf req) |].
      destruct H as [H | [H | [H | [H | []]]]]; try discriminate H.
      injection H as <-.
      exists (main_header ++ trace (input_form w f)
                ++ [st_spinner "🔍 Analyzing image and preparing report..."])%list,
        im, png, [failure_line e].
      split; [| exact Hsave]. rewrite <- !app_assoc. reflexivity.
    + destruct (count_report_calls str_repr result (cafeteria_name f)
                  (question f) (now_strftime w)) as [Hrs Hra].
      repeat split.
      * rewrite !count_cons, Hrs, Hra. cbn. lia.
      * rewrite !count_cons, Hrs. cbn. lia.
      * intros req H.
        rewrite app_assoc, in_app_iff in H. destruct H as [H | H];
          [now contradiction (Hnf req) |].
        destruct H as [H | [H | [H | [H | H]]]]; try discriminate H.
        -- injection H as <-.
           exists (main_header ++ trace (input_form w f)
                     ++ [st_spinner
                           "🔍 Analyzing image and preparing report..."])%list,
             im, png.
           eexists. split; [| exact Hsave].
           rewrite <- !app_assoc. reflexivity.
        -- apply report_makes_no_call in H. now destruct H as (_ & H & _).
Qed.

Lemma endpoint_called_at_most_once_witness :
  exists before image png after,
    trace (main (fun s => s) (sample_world (inr (mkResponse [])) (inr VNone))
             sample_form)
    = (before ++ call_Image_save image "PNG"
         :: call_chat_completions_create (build_request sample_form "iRAgMA==")
         :: after)%list
    /\ Image_save (sample_world (inr (mkResponse [])) (inr VNone)) image "PNG"
       = inr png.
Proof.
  apply (proj2 (proj2 (endpoint_called_at_most_once (fun s => s)
                         (sample_world (inr (mkResponse [])) (inr VNone))
                         sample_form))).
  vm_compute. tauto.
Defined.

(** X5: every request that is sent comes from a submitted form whose four
    inputs are filled; it carries the key and the question of that form
    and the base64 text of the PNG bytes of the opened upload. *)
Theorem requests_come_from_checked_submissions (str_repr : string -> string)
    (w : World) (f : FormInputs) (req : request) :
  In (call_chat_completions_create req) (trace (main str_repr w f)) ->
  submitted f = true
  /\ all_filled f = true
  /\ exists file image png,
       uploaded_image f = Some file
       /\ Image_open w file = inr image
       /\ Image_save w image "PNG" = inr png
       /\ req = build_request f (string_of_list_byte (b64encode png)).
Proof.
  intros Hin. apply in_main_trace in Hin.
  destruct Hin as [Hin | [Hin | (image & Hf & Hin)]].
  - cbn in Hin. destruct Hin as [H | [H | []]]; discriminate H.
  - apply (form_makes_no_call w f) in Hin. now destruct Hin as (_ & _ & H).
  - assert (Hup : forall im, image = Some im ->
                    exists file, uploaded_image f = Some file
                                 /\ Image_open w file = inr im).
    { intros im ->. pose proof (input_form_yields w f _ Hf) as Hy.
      destruct (uploaded_image f) as [file |]; [| discriminate].
      destruct Hy as (im' & [= <-] & Ho & _). now exists file. }
    destruct (analysis_logic_trace_cases str_repr w f image Hf)
      as [[_ E] | [(_ & _ & E)
                 | [(im & e & Hi & Hs & Ha & [E | (png & Hsave & E)])
                   | (im & png & result & Hi & Hs & Ha & Hsave & E)]]];
      rewrite E in Hin; cbn in Hin.
    + contradiction.
    + destruct Hin as [H | []]; discriminate H.
    + destruct Hin as [H | [H | [H | []]]]; discriminate H.
    + destruct Hin as [H | [H | [H | [H | []]]]]; try discriminate H.
      injection H as <-. destruct (Hup im Hi) as (file & Hu & Ho).
      repeat split; trivial. now exists file, im, png.
    + destruct Hin as [H | [H | [H | [H | Hin]]]]; try discriminate H.
      * injection H as <-. destruct (Hup im Hi) as (file & Hu & Ho).
        repeat split; trivial. now exists file, im, png.
      * apply report_makes_no_call in Hin. now destruct Hin as (_ & H & _).
Qed.

Lemma requests_come_from_checked_submissions_witness :
  submitted sample_form = true
  /\ all_filled sample_form = true
  /\ exists file image png,
       uploaded_image sample_form = Some file
       /\ Image_open (sample_world (inr (mkResponse [])) (inr VNone)) file
          = inr image
       /\ Image_save (sample_world (inr (mkResponse [])) (inr VNone)) image
            "PNG" = inr png
       /\ build_request sample_form "iRAgMA=="
          = build_request sample_form (string_of_list_byte (b64encode png)).
Proof.
  apply (requests_come_from_checked_submissions (fun s => s)
           (sample_world (inr (mkResponse [])) (inr VNone)) sample_form
           (build_request sample_form "iRAgMA==")).
  vm_compute. tauto.
Defined.

(** X6: the only picture a run ever saves is the one Pillow opened from
    the upload, the format is always "PNG", and this happens only for a
    submitted form whose four inputs are filled. *)
Theorem only_the_upload_is_saved_as_png (str_repr : string -> string)
    (w : World) (f : FormInputs) (image : Image) (format : string) :
  In (call_Image_save image format) (trace (main str_repr w f)) ->
  format = "PNG"
  /\ submitted f = true
  /\ all_filled f = true
  /\ exists file,
       uploaded_image f = Some file /\ Image_open w file = inr image.
Proof.
  intros Hin. apply in_main_trace in Hin.
  destruct Hin as [Hin | [Hin | (image' & Hf & Hin)]].
  - cbn in Hin. destruct Hin as [H | [H | []]]; discriminate H.
  - apply (form_makes_no_call w f) in Hin. now destruct Hin as (_ & H & _).
  - assert (Hup : forall im, image' = Some im ->
                    exists file, uploaded_image f = Some file
                                 /\ Image_open w file = inr im).
    { intros im ->. pose proof (input_form_yields w f _ Hf) as Hy.
      destruct (uploaded_image f) as [file |]; [| discriminate].
      destruct Hy as (im' & [= <-] & Ho & _). now exists file. }
    destruct (analysis_logic_trace_cases str_repr w f image' Hf)
      as [[_ E] | [(_ & _ & E)
                 | [(im & e & Hi & Hs & Ha & [E | (png & Hsave & E)])
                   | (im & png & result & Hi & Hs & Ha & Hsave & E)]]];
      rewrite E in Hin; cbn in Hin.
    + contradiction.
    + destruct Hin as [H | []]; discriminate H.
    + destruct Hin as [H | [H | [H | []]]]; try discriminate H.
      injection H as <- <-. repeat split; trivial. now apply Hup.
    + destruct Hin as [H | [H | [H | [H | []]]]]; try discriminate H.
      injection H as <- <-. repeat split; trivial. now apply Hup.
    + destruct Hin as [H | [H | [H | [H | Hin]]]]; try discriminate H.
      * injection H as <- <-. repeat split; trivial. now apply Hup.
      * apply report_makes_no_call in Hin. now destruct Hin as (H & _).
Qed.

Lemma only_the_upload_is_saved_as_png_witness :
  submitted sample_form = true
  /\ exists file,
       uploaded_image sample_form = Some file
       /\ Image_open (sample_world (inr (mkResponse [])) (inr VNone)) file
          = inr (raw_row [x10; x20; x30]).
Proof.
  assert (H : In (call_Image_save (raw_row [x10; x20; x30]) "PNG")
                (trace (main (fun s => s)
                          (sample_world (inr (mkResponse [])) (inr VNone))
                          sample_form))) by (vm_compute; tauto).
  pose proof (only_the_upload_is_saved_as_png (fun s => s) _ _ _ _ H)
    as (_ & Hs & _ & Hu).
  split; [exact Hs | exact Hu].
Defined.

Lemma report_has_no_validation_line (str_repr : string -> string)
    (result : value) (c q t : string) :
  Forall (fun ev => is_validation_line ev = false)
         (rendered_report str_repr result c q t).
Proof.
  rewrite rendered_report_eq. apply Forall_app. split.
  - unfold display_results, display_main_metrics,
      display_quality_assessment, display_detailed_analysis.
    repeat first
      [ apply none_bind; [| intros ? ?]
      | apply none_emit; reflexivity
      | apply none_lift
      | apply none_ret
      | match goal with
        | |- context [if ?b then _ else _] => destruct b
        end ].
  - destruct (outcome _) as [e | u]; repeat constructor.
Qed.

(** X7: the check of the inputs looks at presence only.  A submission
    whose three texts are not empty (blank ones included) and whose upload
    opens and is previewed without an exception is never answered with the
    validation error: the spinner is shown, [image.save] is called on the
    picture with the format "PNG" (whether or not it then succeeds), and
    the run ends normally. *)
Theorem complete_submission_is_analysed (str_repr : string -> string)
    (w : World) (f : FormInputs) (file : bytes) (image : Image) :
  submitted f = true ->
  api_key f <> "" -> cafeteria_name f <> "" -> question f <> "" ->
  uploaded_image f = Some file ->
  Image_open w file = inr image ->
  st_image_load w image = None ->
  outcome (main str_repr w f) = inr tt
  /\ In (st_spinner "🔍 Analyzing image and preparing report...")
        (trace (main str_repr w f))
  /\ In (call_Image_save image "PNG") (trace (main str_repr w f))
  /\ ~ In validation_line (trace (main str_repr w f)).
Proof.
  intros Hs Hk Hc Hq Hu Ho Hl.
  assert (Ha : all_filled f = true).
  { apply all_filled_true. repeat split; trivial. congruence. }
  pose proof (input_form_preview w f file image Hu Ho Hl) as Hf.
  split; [now apply main_returns_once_form_is_drawn with (image := Some image) |].
  destruct (main_cases str_repr w f) as [(e & Hf' & _) | (image' & Hf' & ->)];
    [congruence |].
  assert (image' = Some image) by congruence. subst image'.
  cbn [trace fst].
  assert (Hnf : ~ In validation_line (trace (input_form w f))).
  { intros Hin. apply (form_makes_no_call w f) in Hin.
    now destruct Hin as (H & _). }
  assert (Hnh : ~ In validation_line main_header).
  { cbn. intros [H | [H | []]]; discriminate H. }
  destruct (analysis_logic_trace_cases str_repr w f (Some image) Hf)
    as [[Hs' _] | [(_ & Ha' & _)
                  | [(im & e & Hi & _ & _ & [E | (png & _ & E)])
                    | (im & png & result & Hi & _ & _ & _ & E)]]].
  - congruence.
  - congruence.
  - injection Hi as <-. rewrite E. repeat split.
    + apply in_or_app. right. apply in_or_app. right. cbn. tauto.
    + apply in_or_app. right. apply in_or_app. right. cbn. tauto.
    + rewrite !in_app_iff. intros [H | [H | H]]; [tauto | tauto |].
      cbn in H. destruct H as [H | [H | [H | []]]]; discriminate H.
  - injection Hi as <-. rewrite E. repeat split.
    + apply in_or_app. right. apply in_or_app. right. cbn. tauto.
    + apply in_or_app. right. apply in_or_app. right. cbn. tauto.
    + rewrite !in_app_iff. intros [H | [H | H]]; [tauto | tauto |].
      cbn in H. destruct H as [H | [H | [H | [H | []]]]]; discriminate H.
  - injection Hi as <-. rewrite E. repeat split.
    + apply in_or_app. right. apply in_or_app. right. cbn. tauto.
    + apply in_or_app. right. apply in_or_app. right. cbn. tauto.
    + rewrite !in_app_iff. intros [H | [H | H]]; [tauto | tauto |].
      cbn in H. destruct H as [H | [H | [H | [H | H]]]]; try discriminate H.
      pose proof (report_has_no_validation_line str_repr result
                    (cafeteria_name f) (question f) (now_strftime w)) as Hr.
      rewrite Forall_forall in Hr. apply Hr in H. discriminate H.
Qed.

Lemma complete_submission_is_analysed_witness :
  In (st_spinner "🔍 Analyzing image and preparing report...")
     (trace (main (fun s => s) (sample_world (inr (mkResponse [])) (inr VNone))
               (mkFormInputs " " " " " " (Some sample_picture) true)))
  /\ ~ In validation_line
          (trace (main (fun s => s)
                    (sample_world (inr (mkResponse [])) (inr VNone))
                    (mkFormInputs " " " " " " (Some sample_picture) true))).
Proof.
  pose proof (complete_submission_is_analysed (fun s => s)
                (sample_world (inr (mkResponse [])) (inr VNone))
                (mkFormInputs " " " " " " (Some sample_picture) true)
                sample_picture (raw_row [x10; x20; x30]) eq_refl) as H.
  destruct H as (_ & Hsp & _ & Hnv);
    try reflexivity; try discriminate.
  split; assumption.
Defined.

(** X8: when the answer was parsed but [display_results] raises, the
    user has already been told "Analysis Complete!"; what was rendered so
    far stays, the message of the handler comes last, and the run still
    ends normally. *)
Theorem rendering_error_follows_completion_line
    (str_repr : string -> string) (w : World) (f : FormInputs)
    (image : Image) (result : value) (e : exception) :
  submitted f = true ->
  all_filled f = true ->
  outcome (input_form w f) = inr (Some image) ->
  analysis_yields w f image result ->
  outcome (display_results str_repr result (cafeteria_name f) (question f)
             (now_strftime w)) = inl e ->
  outcome (main str_repr w f) = inr tt
  /\ exists before,
       trace (main str_repr w f)
       = (before
            ++ st_success "✅ Analysis Complete!"
            :: trace (display_results str_repr result (cafeteria_name f)
                        (question f) (now_strftime w))
            ++ [failure_line e])%list.
Proof.
  intros Hs Ha Hf Hy He.
  destruct (successful_run str_repr w f image result Hs Ha Hf Hy)
    as [Ho [before Ht]].
  split; [exact Ho |]. exists before.
  rewrite Ht, rendered_report_eq, He. reflexivity.
Qed.

Lemma rendering_error_follows_completion_line_witness :
  exists before,
    trace (main (fun s => s)
             (sample_world (inr (mkResponse [Some "[]"])) (inr (VList [])))
             sample_form)
    = (before
         ++ st_success "✅ Analysis Complete!"
         :: trace (display_results (fun s => s) (VList []) "Canteen 4"
                     "Is the counter clean?" "2024-01-01 12:00:00")
         ++ [st_error
               "Analysis failed: 'list' object has no attribute 'get'"])%list.
Proof.
  refine (proj2 (rendering_error_follows_completion_line (fun s => s)
                   (sample_world (inr (mkResponse [Some "[]"]))
                      (inr (VList [])))
                   sample_form (raw_row [x10; x20; x30]) (VList [])
                   (AttributeError "'list' object has no attribute 'get'")
                   eq_refl eq_refl eq_refl _ eq_refl)).
  exists [x89; x10; x20; x30], (mkResponse [Some "[]"]).
  repeat split; reflexivity.
Defined.

(** ** The report, field by field *)

Lemma main_metrics_header (str_repr : string -> string) (result : value)
    (c t : string) :
  exists rest,
    trace (display_main_metrics str_repr result c t)
    = (report_header c t ++ rest)%list.
Proof.
  unfold display_main_metrics. rewrite !bind_emit.
  cbn [trace outcome fst snd]. eexists. unfold report_header. cbn [app].
  reflexivity.
Qed.

(** X9: whatever the parsed answer is, an object or not, the report
    starts with the same five events: the container, the heading, the
    columns, the cafeteria name and the analysis date, both verbatim. *)
Theorem report_starts_with_header (str_repr : string -> string)
    (result : value) (c q t : string) :
  exists rest,
    trace (display_results str_repr result c q t)
    = (report_header c t ++ rest)%list.
Proof.
  destruct (main_metrics_header str_repr result c t) as [rest Hr].
  unfold display_results.
  destruct (outcome (display_main_metrics str_repr result c t))
    as [e | []] eqn:Ho.
  - destruct (bind_raised _ (fun _ =>
      bind (display_quality_assessment str_repr result)
        (fun _ => display_detailed_analysis result q)) e Ho) as [-> _].
    now exists rest.
  - destruct (trace_bind_ok _ (fun _ =>
      bind (display_quality_assessment str_repr result)
        (fun _ => display_detailed_analysis result q)) tt Ho) as [-> _].
    rewrite Hr, <- app_assoc. eexists. reflexivity.
Qed.

(** X10: an answer that is valid JSON but not an object (an array, a
    string, a number, a boolean, null) has no [get]: the report stops
    after its header with an AttributeError naming the type. *)
Theorem non_object_answer_stops_after_header (str_repr : string -> string)
    (result : value) (c q t : string) :
  (forall d, result <> VDict d) ->
  display_results str_repr result c q t
  = (report_header c t,
     inl (AttributeError
            ("'" ++ type_name result ++ "' object has no attribute 'get'"))).
Proof.
  intros Hd. destruct result; try reflexivity.
  now contradiction (Hd items).
Qed.

Lemma non_object_answer_stops_after_header_witness :
  display_results (fun s => s) (VList [VStr "Yes"]) "c" "q" "t"
  = (report_header "c" "t",
     inl (AttributeError "'list' object has no attribute 'get'")).
Proof.
  apply (non_object_answer_stops_after_header (fun s => s)
           (VList [VStr "Yes"]) "c" "q" "t").
  intros d. discriminate.
Defined.

(** X11: a severity that is a JSON array or object cannot be looked up in
    the colour table: the report stops after the compliance line with
    "unhashable type", and neither the severity nor anything after it is
    shown. *)
Theorem unhashable_severity_stops_report (str_repr : string -> string)
    (d : list (string * value)) (c q t : string) :
  let status := dict_get d "criteria_met" (VStr "Unknown") in
  let severity := dict_get d "severity" (VStr "Unknown") in
  hashable severity = false ->
  display_results str_repr (VDict d) c q t
  = ((report_header c t
        ++ [st_markdown ("**Compliance Status:** " ++ status_icon status
                           ++ " " ++ str str_repr status) false])%list,
     inl (TypeError ("unhashable type: '" ++ type_name severity ++ "'"))).
Proof.
  intros status severity Hh.
  unfold display_results, display_main_metrics. cbn [get].
  rewrite !bind_emit, bind_lift_ok, bind_emit, bind_lift_ok.
  fold severity status.
  assert (Hg : table_get severity_color severity ""
               = inl (TypeError
                        ("unhashable type: '" ++ type_name severity ++ "'")))
    by (destruct severity; try discriminate Hh; reflexivity).
  rewrite Hg. reflexivity.
Qed.

Lemma unhashable_severity_stops_report_witness :
  outcome (display_results (fun s => s)
             (VDict [("severity", VList [VStr "Major"])]) "c" "q" "t")
  = inl (TypeError "unhashable type: 'list'").
Proof.
  exact (f_equal snd
           (unhashable_severity_stops_report (fun s => s)
              [("severity", VList [VStr "Major"])] "c" "q" "t" eq_refl)).
Defined.

Lemma join_items_first_non_string (before : list string) (x : value)
    (rest : list value) (i : nat) :
  is_str x = false ->
  join_items i (map VStr before ++ x :: rest)
  = inl (TypeError ("sequence item " ++ string_of_nat (i + length before)
                      ++ ": expected str instance, "
                      ++ type_name x ++ " found")).
Proof.
  revert i. induction before as [| s before IH]; intros i Hx.
  - cbn [map app length]. rewrite Nat.add_0_r.
    destruct x; try discriminate Hx; reflexivity.
  - cbn [map app length join_items]. rewrite (IH (S i) Hx).
    now rewrite Nat.add_succ_r.
Qed.

Lemma join_items_ok (items : list value) (i : nat) (l : list string) :
  join_items i items = inr l -> items = map VStr l.
Proof.
  revert i l. induction items as [| x items IH]; intros i l.
  - now intros [= <-].
  - destruct x; try discriminate. cbn.
    destruct (join_items (S i) items) as [e | l'] eqn:E; [discriminate |].
    intros [= <-]. cbn. f_equal. now apply (IH (S i)).
Qed.

(** X12: a [tags] list holding something that is not a string makes
    [str.join] raise a TypeError that names the position and the type of
    the first such item; the report stops after the severity line and the
    tags line is not shown. *)
Theorem tags_with_non_string_item (str_repr : string -> string)
    (d : list (string * value)) (c q t : string) (before : list string)
    (x : value) (rest : list value) :
  hashable (dict_get d "severity" (VStr "Unknown")) = true ->
  dict_get d "tags" (VList []) = VList (map VStr before ++ x :: rest) ->
  is_str x = false ->
  outcome (display_results str_repr (VDict d) c q t)
  = inl (TypeError ("sequence item " ++ string_of_nat (length before)
                      ++ ": expected str instance, "
                      ++ type_name x ++ " found"))
  /\ length (trace (display_results str_repr (VDict d) c q t)) = 7%nat.
Proof.
  intros Hh Ht Hx.
  destruct (severity_class_cases _ Hh) as (cls & Hc & _).
  unfold display_results, display_main_metrics. cbn [get].
  rewrite !bind_emit, bind_lift_ok, bind_emit, bind_lift_ok, Hc,
    bind_lift_ok, bind_emit, bind_lift_ok, Ht.
  cbn [is_list str_join].
  rewrite (join_items_first_non_string before x rest 0 Hx). split; reflexivity.
Qed.

Lemma tags_with_non_string_item_witness :
  outcome (display_results (fun s => s)
             (VDict [("tags", VList [VStr "clean"; VInt 3; VStr "dry"])])
             "c" "q" "t")
  = inl (TypeError "sequence item 1: expected str instance, int found").
Proof.
  exact (proj1 (tags_with_non_string_item (fun s => s)
                  [("tags", VList [VStr "clean"; VInt 3; VStr "dry"])]
                  "c" "q" "t" ["clean"] (VInt 3) [VStr "dry"]
                  eq_refl eq_refl eq_refl)).
Defined.

Lemma display_results_after_quality (str_repr : string -> string)
    (d : list (string * value)) (c q t : string) :
  outcome (display_results str_repr (VDict d) c q t) = inr tt ->
  trace (display_results str_repr (VDict d) c q t)
  = (trace (display_main_metrics str_repr (VDict d) c t)
       ++ trace (display_quality_assessment str_repr (VDict d))
       ++ trace (display_detailed_analysis (VDict d) q))%list.
Proof.
  intros Ho. unfold display_results in *.
  destruct (outcome_bind_inv _ _ _ Ho) as ([] & Hm & Ho').
  destruct (outcome_bind_inv _ _ _ Ho') as ([] & Hq & _).
  destruct (trace_bind_ok _ (fun _ =>
    bind (display_quality_assessment str_repr (VDict d))
      (fun _ => display_detailed_analysis (VDict d) q)) tt Hm) as [-> _].
  now destruct (trace_bind_ok _
    (fun _ => display_detailed_analysis (VDict d) q) tt Hq) as [-> _].
Qed.

Lemma detailed_analysis_trace (d : list (string * value)) (q : string) :
  let improvements := dict_get d "improvements" (VStr "") in
  trace (display_detailed_analysis (VDict d) q)
  = ([st_expander "🔍 Detailed Compliance Analysis" false;
      st_markdown ("**Assessment Question:** " ++ q) false;
      st_markdown "### Explanation" false;
      st_write (dict_get d "explanation" (VStr "No explanation provided"))]
       ++ (if truthy improvements
           then [st_markdown "### 🛠️ Improvement Suggestions" false;
                 st_write improvements]
           else [st_success
                   "🌟 No improvements needed - all standards met"]))%list.
Proof.
  intros improvements. unfold display_detailed_analysis. cbn [get].
  rewrite !bind_emit, bind_lift_ok, bind_emit, bind_lift_ok.
  fold improvements. destruct (truthy improvements); reflexivity.
Qed.

(** X13: when [image_quality_issues] is a number, a boolean or null, it
    is not the list ["none"] and [str.join] cannot iterate over it: the
    report stops inside the quality section with "can only join an
    iterable", before any line about the issues. *)
Theorem scalar_issues_stop_report (str_repr : string -> string)
    (d : list (string * value)) (c q t : string) :
  outcome (display_main_metrics str_repr (VDict d) c t) = inr tt ->
  is_scalar (dict_get d "image_quality_issues" (VList [VStr "none"])) = true ->
  display_results str_repr (VDict d) c q t
  = ((trace (display_main_metrics str_repr (VDict d) c t)
        ++ [st_expander "📸 Image Quality Analysis" true;
            st_columns [1; 1]%nat])%list,
     inl (TypeError "can only join an iterable")).
Proof.
  intros Hm Hi. unfold display_results.
  rewrite (m_eta (bind _ _)).
  destruct (trace_bind_ok _ (fun _ =>
    bind (display_quality_assessment str_repr (VDict d))
      (fun _ => display_detailed_analysis (VDict d) q)) tt Hm) as [-> ->].
  unfold display_quality_assessment. cbn [get].
  rewrite !bind_emit, bind_lift_ok.
  destruct (dict_get d "image_quality_issues" (VList [VStr "none"]));
    try discriminate Hi; reflexivity.
Qed.

Lemma scalar_issues_stop_report_witness :
  outcome (display_results (fun s => s)
             (VDict [("image_quality_issues", VNone)]) "c" "q" "t")
  = inl (TypeError "can only join an iterable").
Proof.
  exact (f_equal snd
           (scalar_issues_stop_report (fun s => s)
              [("image_quality_issues", VNone)] "c" "q" "t"
              eq_refl eq_refl)).
Defined.

(** X14: when [image_quality_issues] is a JSON object, [str.join]
    iterates over its keys: the warning lists the keys, joined with ", ",
    and none of the values. *)
Theorem object_issues_show_keys (str_repr : string -> string)
    (d : list (string * value)) (c q t : string)
    (items : list (string * value)) :
  outcome (display_main_metrics str_repr (VDict d) c t) = inr tt ->
  dict_get d "image_quality_issues" (VList [VStr "none"]) = VDict items ->
  In (st_error ("⚠️ Detected issues: " ++ join ", " (map fst items)))
     (trace (display_results str_repr (VDict d) c q t))
  /\ outcome (display_results str_repr (VDict d) c q t) = inr tt.
Proof.
  intros Hm Hi. split.
  - apply display_results_issues; [exact Hm | |]; rewrite Hi;
      [discriminate | reflexivity].
  - apply display_results_ok_iff. unfold renders.
    apply main_metrics_ok_iff in Hm. cbv zeta in Hm. rewrite Hm, Hi.
    reflexivity.
Qed.

Lemma object_issues_show_keys_witness :
  In (st_error "⚠️ Detected issues: blur, glare")
     (trace (display_results (fun s => s)
               (VDict [("image_quality_issues",
                        VDict [("blur", VStr "strong"); ("glare", VNone)])])
               "c" "q" "t")).
Proof.
  exact (proj1 (object_issues_show_keys (fun s => s)
                  [("image_quality_issues",
                    VDict [("blur", VStr "strong"); ("glare", VNone)])]
                  "c" "q" "t" [("blur", VStr "strong"); ("glare", VNone)]
                  eq_refl eq_refl)).
Defined.

Lemma joinable_iff (v : value) :
  joinable v = true
  <-> (exists s, v = VStr s) \/ (exists items, v = VDict items)
      \/ (exists l, v = VList (map VStr l)).
Proof.
  unfold joinable. destruct v as [| b | z | r | s | l | items]; cbn;
    try (split; [discriminate | intros [[? H] | [[? H] | [? H]]];
                                discriminate H]).
  - split; [intros _; left; now exists s | reflexivity].
  - destruct (join_items 0 l) as [e | l'] eqn:E.
    + split; [discriminate |].
      intros [[? H] | [[? H] | [l' H]]]; try discriminate H.
      injection H as ->. rewrite join_items_strings in E. discriminate E.
    + split; [| reflexivity]. intros _. right; right. exists l'.
      f_equal. now apply (join_items_ok l 0).
  - split; [intros _; right; left; now exists items | reflexivity].
Qed.

Lemma renders_iff_fields (d : list (string * value)) :
  let severity := dict_get d "severity" (VStr "Unknown") in
  let tags := dict_get d "tags" (VList []) in
  let issues := dict_get d "image_quality_issues" (VList [VStr "none"]) in
  renders d = true
  <-> hashable severity = true
      /\ (forall items, tags = VList items -> exists l, items = map VStr l)
      /\ ((exists s, issues = VStr s) \/ (exists items, issues = VDict items)
          \/ (exists l, issues = VList (map VStr l))).
Proof.
  intros severity tags issues. unfold renders.
  fold severity tags issues. rewrite !andb_true_iff, orb_true_iff.
  rewrite <- (joinable_iff issues).
  assert (Hnone : eq_str_singleton issues "none" = true ->
                  joinable issues = true).
  { intros H. apply eq_str_singleton_true in H. rewrite H. reflexivity. }
  assert (Htags : (if is_list tags then joinable tags else true) = true
                  <-> forall items, tags = VList items ->
                                    exists l, items = map VStr l).
  { destruct tags as [| b | z | r | s | l | items]; cbn [is_list];
      try (split; [intros _ items' H; discriminate H | reflexivity]).
    rewrite joinable_iff. split.
    - intros [[? H] | [[? H] | [l' H]]] items [= <-]; try discriminate H.
      injection H as ->. now exists l'.
    - intros H. destruct (H l eq_refl) as [l' ->]. right; right. now exists l'. }
  rewrite Htags. tauto.
Qed.

(** X15: a report of a parsed object that is rendered to its end, without
    an exception, had a severity that can be hashed (not an array or an
    object), tags that, if they are a list, hold strings only, and issues
    that are a string, an object or a list of strings. *)
Theorem rendered_report_had_usable_fields (str_repr : string -> string)
    (d : list (string * value)) (c q t : string) :
  let severity := dict_get d "severity" (VStr "Unknown") in
  let tags := dict_get d "tags" (VList []) in
  let issues := dict_get d "image_quality_issues" (VList [VStr "none"]) in
  outcome (display_results str_repr (VDict d) c q t) = inr tt ->
  hashable severity = true
  /\ (forall items, tags = VList items -> exists l, items = map VStr l)
  /\ ((exists s, issues = VStr s) \/ (exists items, issues = VDict items)
      \/ (exists l, issues = VList (map VStr l))).
Proof.
  intros severity tags issues Ho.
  apply display_results_ok_iff in Ho. now apply renders_iff_fields in Ho.
Qed.

Lemma rendered_report_had_usable_fields_witness :
  hashable (dict_get [("tags", VList [VStr "clean"])] "severity"
              (VStr "Unknown")) = true
  /\ forall items,
       dict_get [("tags", VList [VStr "clean"])] "tags" (VList [])
       = VList items ->
       exists l, items = map VStr l.
Proof.
  pose proof (rendered_report_had_usable_fields (fun s => s)
                [("tags", VList [VStr "clean"])] "c" "q" "t" eq_refl)
    as (Hh & Ht & _).
  split; [exact Hh | exact Ht].
Defined.

(** X16: a report rendered to its end closes with the improvements.  A
    true value (a non-empty string, list or object, a non-zero number)
    is written under the heading "Improvement Suggestions"; an absent,
    empty, zero, false or null one gives the line "No improvements
    needed" instead. *)
Theorem improvements_close_the_report (str_repr : string -> string)
    (d : list (string * value)) (c q t : string) :
  let improvements := dict_get d "improvements" (VStr "") in
  outcome (display_results str_repr (VDict d) c q t) = inr tt ->
  (exists before,
     trace (display_results str_repr (VDict d) c q t)
     = (before
          ++ (if truthy improvements
              then [st_markdown "### 🛠️ Improvement Suggestions" false;
                    st_write improvements]
              else [st_success
                      "🌟 No improvements needed - all standards met"]))%list)
  /\ (lookup "improvements" d = None -> truthy improvements = false).
Proof.
  intros improvements Ho. split.
  - rewrite (display_results_after_quality _ _ _ _ _ Ho).
    rewrite detailed_analysis_trace. fold improvements.
    rewrite !app_assoc. eexists. reflexivity.
  - intros Habs. unfold improvements, dict_get. now rewrite Habs.
Qed.

Lemma improvements_close_the_report_witness :
  exists before,
    trace (display_results (fun s => s)
             (VDict [("improvements", VStr "Cover the trays")]) "c" "q" "t")
    = (before ++ [st_markdown "### 🛠️ Improvement Suggestions" false;
                  st_write (VStr "Cover the trays")])%list.
Proof.
  exact (proj1 (improvements_close_the_report (fun s => s)
                  [("improvements", VStr "Cover the trays")] "c" "q" "t"
                  eq_refl)).
Defined.

(** X17: a report rendered to its end shows the quality assessment as an
    info line, the question of the form verbatim, and the explanation as
    the parser returned it, whatever its type. *)
Theorem assessment_question_and_explanation_shown
    (str_repr : string -> string) (d : list (string * value))
    (c q t : string) :
  outcome (display_results str_repr (VDict d) c q t) = inr tt ->
  In (st_info ("Quality Impact Assessment: "
                 ++ str str_repr (dict_get d "quality_assessment" (VStr ""))))
     (trace (display_results str_repr (VDict d) c q t))
  /\ In (st_markdown ("**Assessment Question:** " ++ q) false)
        (trace (display_results str_repr (VDict d) c q t))
  /\ In (st_write (dict_get d "explanation" (VStr "No explanation provided")))
        (trace (display_results str_repr (VDict d) c q t)).
Proof.
  intros Ho. rewrite (display_results_after_quality _ _ _ _ _ Ho).
  rewrite detailed_analysis_trace. repeat split.
  - apply in_or_app. right. apply in_or_app. left.
    unfold display_results in Ho.
    destruct (outcome_bind_inv _ _ _ Ho) as ([] & _ & Ho').
    destruct (outcome_bind_inv _ _ _ Ho') as ([] & Hq & _).
    apply quality_assessment_ok_iff in Hq. cbv zeta in Hq.
    destruct (eq_str_singleton
                (dict_get d "image_quality_issues" (VList [VStr "none"]))
                "none") eqn:He.
    + apply eq_str_singleton_true in He.
      rewrite (quality_assessment_none str_repr d He). cbn. tauto.
    + cbn [orb] in Hq. unfold joinable in Hq.
      destruct (str_join ", "
                  (dict_get d "image_quality_issues" (VList [VStr "none"])))
        as [e | joined] eqn:Hj; [discriminate |].
      rewrite (quality_assessment_issues str_repr d joined); [cbn; tauto | |].
      * intros E. apply eq_str_singleton_true in E. congruence.
      * exact Hj.
  - apply in_or_app. right. apply in_or_app. right. cbn. tauto.
  - apply in_or_app. right. apply in_or_app. right. cbn. tauto.
Qed.

Lemma assessment_question_and_explanation_shown_witness :
  In (st_write (VStr "No explanation provided"))
     (trace (display_results (fun s => s) (VDict []) "c" "q" "t")).
Proof.
  exact (proj2 (proj2 (assessment_question_and_explanation_shown
                         (fun s => s) [] "c" "q" "t" eq_refl))).
Defined.

(** ** Strings, base64 and the request *)

Lemma string_length_append (a b : string) :
  String.length (a ++ b) = (String.length a + String.length b)%nat.
Proof. induction a as [| c a IH]; cbn; [reflexivity | now rewrite IH]. Qed.

Lemma append_cancel_l (p a b : string) : p ++ a = p ++ b -> a = b.
Proof.
  induction p as [| c p IH]; cbn; [trivial |]. intros [= H]. now apply IH.
Qed.

Lemma append_cancel_r (a b s : string) : a ++ s = b ++ s -> a = b.
Proof.
  revert b. induction a as [| c a IH]; intros [| c' b] H.
  - reflexivity.
  - apply (f_equal String.length) in H. cbn in H.
    rewrite string_length_append in H. lia.
  - apply (f_equal String.length) in H. cbn in H.
    rewrite string_length_append in H. lia.
  - cbn in H. injection H as -> H. f_equal. now apply IH.
Qed.

Lemma prompt_injective (q q' : string) : prompt q = prompt q' -> q = q'.
Proof.
  unfold prompt. intros H. apply append_cancel_l in H.
  now apply append_cancel_r in H.
Qed.

(** X18: the base64 text can always be read back, byte for byte, so two
    different pictures never get the same text. *)
Theorem base64_round_trip (data data' : bytes) :
  b64decode (b64encode data) = Some data
  /\ (b64encode data = b64encode data' -> data = data').
Proof.
  split; [apply b64decode_b64encode |].
  intros H. apply (f_equal b64decode) in H.
  rewrite !b64decode_b64encode in H. now injection H.
Qed.

Lemma base64_round_trip_witness :
  b64decode (b64encode sample_picture) = Some sample_picture
  /\ sample_picture = [x89; x10; x20; x30].
Proof.
  split.
  - exact (proj1 (base64_round_trip sample_picture sample_picture)).
  - exact (proj2 (base64_round_trip sample_picture [x89; x10; x20; x30])
             eq_refl).
Defined.

Lemma b64_char_in_alphabet (s : N) : (s < 64)%N -> In (b64_char s) b64_alphabet.
Proof.
  intros Hs. unfold b64_char. apply nth_In.
  change (length b64_alphabet) with 64%nat. lia.
Qed.

(** X19: the base64 text has four characters for every three bytes,
    the last group being padded, and each character is one of the 64 of
    the alphabet or the padding sign. *)
Theorem base64_text_shape (data : bytes) :
  length (b64encode data) = (4 * ((length data + 2) / 3))%nat
  /\ Forall (fun c => In c b64_alphabet \/ c = b64_pad) (b64encode data).
Proof.
  induction data as [| a | a b | a b c rest [IHl IHa]] using list_ind3.
  - split; [reflexivity | constructor].
  - sextet_facts (to_N a) 0%N. destruct Hsx as (H0 & H1 & _).
    split; [reflexivity |]. cbn [b64encode].
    repeat (constructor; [left; now apply b64_char_in_alphabet |]).
    repeat (constructor; [now right |]). constructor.
  - sextet_facts (to_N a) (to_N b). destruct Hsx as (H0 & H1 & _).
    sextet_facts (to_N b) 0%N. destruct Hsx as (_ & _ & H2 & _).
    split; [reflexivity |]. cbn [b64encode].
    repeat (constructor; [left; now apply b64_char_in_alphabet |]).
    repeat (constructor; [now right |]). constructor.
  - sextet_facts (to_N a) (to_N b). destruct Hsx as (H0 & H1 & _).
    sextet_facts (to_N b) (to_N c). destruct Hsx as (_ & _ & H2 & _).
    sextet_facts (to_N c) 0%N. destruct Hsx as (_ & _ & _ & H3).
    cbn [b64encode length]. split.
    + rewrite IHl.
      replace (S (S (S (length rest))) + 2)%nat
        with (length rest + 2 + 1 * 3)%nat by lia.
      rewrite Nat.div_add by lia. lia.
    + repeat (constructor; [left; now apply b64_char_in_alphabet |]).
      exact IHa.
Qed.

Lemma str_iter_nonempty (c : ascii) (s : string) : str_iter (String c s) <> [].
Proof.
  cbn [str_iter]. destruct (starts_with_continuation s); [| discriminate].
  destruct (str_iter s); discriminate.
Qed.

Lemma append_nil_r (s : string) : s ++ "" = s.
Proof. induction s as [| c s IH]; cbn; [reflexivity | now rewrite IH]. Qed.

Lemma concat_empty_cons (x : string) (l : list string) :
  String.concat "" (x :: l) = x ++ String.concat "" l.
Proof. destruct l; cbn; [now rewrite append_nil_r | reflexivity]. Qed.

(** X20: iterating over a string loses nothing and invents nothing: the
    items put back together are the string, and no item is empty. *)
Theorem str_iter_partitions (s : string) :
  String.concat "" (str_iter s) = s
  /\ Forall (fun item => item <> "") (str_iter s).
Proof.
  induction s as [| c s [IHc IHn]]; [split; [reflexivity | constructor] |].
  cbn [str_iter]. destruct (starts_with_continuation s).
  - destruct (str_iter s) as [| hd tl] eqn:E.
    + cbn in IHc. subst s. split; [reflexivity |].
      repeat constructor. discriminate.
    + rewrite concat_empty_cons in IHc. split.
      * rewrite concat_empty_cons. cbn. now rewrite IHc.
      * inversion IHn; subst. constructor; [discriminate | assumption].
  - split.
    + rewrite concat_empty_cons. cbn. now rewrite IHc.
    + constructor; [discriminate | assumption].
Qed.

(** X21: the request keeps its inputs apart: two requests built by the
    script are equal only if the key, the question and the bytes of the
    picture are. *)
Theorem request_determines_inputs (f f' : FormInputs) (png png' : bytes) :
  build_request f (string_of_list_byte (b64encode png))
  = build_request f' (string_of_list_byte (b64encode png')) ->
  api_key f = api_key f' /\ question f = question f' /\ png = png'.
Proof.
  unfold build_request, data_url. intros [= Hk Hq Hu].
  repeat split; [exact Hk | now apply append_cancel_r in Hq |].
  apply (f_equal list_byte_of_string) in Hu.
  rewrite !list_byte_of_string_of_list_byte in Hu.
  apply (f_equal b64decode) in Hu.
  rewrite !b64decode_b64encode in Hu. now injection Hu.
Qed.

Lemma request_determines_inputs_witness :
  api_key sample_form = api_key sample_form
  /\ question sample_form = question sample_form
  /\ sample_picture = sample_picture.
Proof.
  exact (request_determines_inputs sample_form sample_form sample_picture
           sample_picture eq_refl).
Defined.

(** ** The style sheet *)

(** X22: the style sheet is the first thing the script writes, and every
    class the colour table can put on the severity span is either empty
    or has a rule in that style sheet. *)
Theorem severity_classes_are_styled (str_repr : string -> string)
    (w : World) (f : FormInputs) (severity : value) (color_class : string) :
  table_get severity_color severity "" = inr color_class ->
  (color_class = "" \/ declares page_style color_class = true)
  /\ trace (script str_repr w f)
     = st_markdown page_style true :: trace (main str_repr w f).
Proof.
  intros Hg. split.
  - destruct severity as [| b | z | r | s | l | items];
      try discriminate Hg; try (injection Hg as <-; now left).
    cbn [table_get severity_color lookup] in Hg.
    destruct (String.eqb "Critical" s);
      [injection Hg as <-; right; vm_compute; reflexivity |].
    destruct (String.eqb "Major" s);
      [injection Hg as <-; right; vm_compute; reflexivity |].
    destruct (String.eqb "Minor" s);
      [injection Hg as <-; right; vm_compute; reflexivity |].
    destruct (String.eqb "None" s); injection Hg as <-; now left.
  - unfold script. now rewrite bind_emit.
Qed.

Lemma severity_classes_are_styled_witness :
  declares page_style "severity-critical" = true.
Proof.
  destruct (proj1 (severity_classes_are_styled (fun s => s)
                     (sample_world (inr (mkResponse [])) (inr VNone))
                     sample_form (VStr "Critical") "severity-critical"
                     eq_refl)) as [H | H].
  - discriminate H.
  - exact H.
Defined.
